(** * Travel-wallet bot: the rate cache, the conversation flow and the ledger

    A shallow embedding of [api_client.py] and [bot.py].

    Modelling conventions.
    - A Python [float] is an exact rational ([Q]); rounding of binary
      floating point is not modelled.  Division by zero raises, as in
      Python.
    - A Python [str] is a [string] of bytes (UTF-8 for the Russian
      texts).  The [str] methods ([strip], [upper], [lower], [isalpha],
      [len]) and the digits read by [int()], [float()] and the regular
      expression are given their behaviour on ASCII.
    - A handler is a function of the world (database, rate cache, log of
      external requests, messages sent) in a small state-and-exception
      monad.
    - The modules [db] and [current_api] are imported by [bot.py]; the
      ledger and the state store are modelled from the specification, the
      country table and the two formatting helpers are parameters. *)

From Stdlib Require Import ZArith QArith Qround Lia Lqa String Ascii List.
From stdpp Require Import base option gmap strings.
Import ListNotations.

#[local] Open Scope string_scope.
#[local] Open Scope Z_scope.

(* ===================================================================== *)
(** * Python built-ins on strings *)
(* ===================================================================== *)

Module Py.

(** Truth value of a string: empty is falsy. *)
Definition nonempty (s : string) : bool :=
  match s with EmptyString => false | String _ _ => true end.

(** [c.isspace()] on ASCII: TAB..CR, FS..US and the blank. *)
Definition isspace (c : ascii) : bool :=
  let n := Z.of_nat (nat_of_ascii c) in
  ((9 <=? n) && (n <=? 13)) || ((28 <=? n) && (n <=? 32)).

Fixpoint lstrip (s : string) : string :=
  match s with
  | EmptyString => EmptyString
  | String c r => if isspace c then lstrip r else s
  end.

Fixpoint rstrip (s : string) : string :=
  match s with
  | EmptyString => EmptyString
  | String c r =>
      let r' := rstrip r in
      if isspace c && negb (nonempty r') then EmptyString else String c r'
  end.

(** [s.strip()] *)
Definition strip (s : string) : string := rstrip (lstrip s).

Definition is_lower (c : ascii) : bool :=
  let n := Z.of_nat (nat_of_ascii c) in (97 <=? n) && (n <=? 122).

Definition is_upper (c : ascii) : bool :=
  let n := Z.of_nat (nat_of_ascii c) in (65 <=? n) && (n <=? 90).

Definition upper_char (c : ascii) : ascii :=
  if is_lower c then ascii_of_nat (nat_of_ascii c - 32) else c.

Definition lower_char (c : ascii) : ascii :=
  if is_upper c then ascii_of_nat (nat_of_ascii c + 32) else c.

Fixpoint map_chars (f : ascii -> ascii) (s : string) : string :=
  match s with
  | EmptyString => EmptyString
  | String c r => String (f c) (map_chars f r)
  end.

(** [s.upper()], [s.lower()] *)
Definition upper : string -> string := map_chars upper_char.
Definition lower : string -> string := map_chars lower_char.

(** [s.replace(a, b)] for one-character [a] and [b]. *)
Definition replace (a b : ascii) : string -> string :=
  map_chars (fun c => if Ascii.eqb c a then b else c).

Fixpoint all_chars (p : ascii -> bool) (s : string) : bool :=
  match s with
  | EmptyString => true
  | String c r => p c && all_chars p r
  end.

(** [s.isalpha()]: at least one character, all of them letters. *)
Definition isalpha (s : string) : bool :=
  nonempty s && all_chars (fun c => is_lower c || is_upper c) s.

(** [needle in hay] *)
Fixpoint contains (needle hay : string) : bool :=
  String.prefix needle hay ||
  match hay with
  | EmptyString => false
  | String _ r => contains needle r
  end.

(** The text before the first [sep], and the text after it when there is
    one. *)
Fixpoint cut (sep : ascii) (s : string) : string * option string :=
  match s with
  | EmptyString => (EmptyString, None)
  | String c r =>
      if Ascii.eqb c sep then (EmptyString, Some r)
      else let '(a, b) := cut sep r in (String c a, b)
  end.

(** [s.split(sep, maxsplit)] *)
Fixpoint split (sep : ascii) (maxsplit : nat) (s : string) : list string :=
  match maxsplit with
  | O => [s]
  | S n =>
      match cut sep s with
      | (a, None) => [a]
      | (a, Some r) => a :: split sep n r
      end
  end.

(** [s.split(sep)]: no bound on the number of cuts. *)
Definition split_all (sep : ascii) (s : string) : list string :=
  split sep (String.length s) s.

(** [sep.join(l)], as the f-strings with [|] and [_] between fields do. *)
Fixpoint join (sep : string) (l : list string) : string :=
  match l with
  | [] => EmptyString
  | [a] => a
  | a :: r => a ++ sep ++ join sep r
  end.

(** ** Decimal digits *)

Definition is_digit (c : ascii) : bool :=
  let n := Z.of_nat (nat_of_ascii c) in (48 <=? n) && (n <=? 57).

Definition digit_val (c : ascii) : Z := Z.of_nat (nat_of_ascii c) - 48.

Definition digit_char (d : Z) : ascii := ascii_of_nat (Z.to_nat (48 + d)).

(** The longest prefix of digits, and what follows it. *)
Fixpoint span_digits (s : string) : string * string :=
  match s with
  | EmptyString => (EmptyString, EmptyString)
  | String c r =>
      if is_digit c then let '(d, t) := span_digits r in (String c d, t)
      else (EmptyString, s)
  end.

(** Value of a run of digits read after the value [acc]. *)
Fixpoint digits_acc (acc : Z) (s : string) : Z :=
  match s with
  | EmptyString => acc
  | String c r => digits_acc (acc * 10 + digit_val c) r
  end.

(** The [w] low decimal digits of [n], most significant first. *)
Fixpoint emit (w : nat) (n : Z) (acc : string) : string :=
  match w with
  | O => acc
  | S w' => emit w' (n / 10) (String (digit_char (n mod 10)) acc)
  end.

(** Drop leading zeros, keeping the last character. *)
Fixpoint strip_zeros (s : string) : string :=
  match s with
  | String c (String _ _ as r) => if Ascii.eqb c "0" then strip_zeros r else s
  | _ => s
  end.

(** [str(n)] for [n >= 0]. *)
Definition str_of_nonneg (n : Z) : string :=
  strip_zeros (emit (S (Z.to_nat (Z.log2 n))) n EmptyString).

(** [str(n)], [f"{n}"] for an [int]. *)
Definition str_of_int (n : Z) : string :=
  if n <? 0 then String "-" (str_of_nonneg (- n)) else str_of_nonneg n.

(** An optional sign in front of a number: [true] for [-]. *)
Definition cut_sign (s : string) : bool * string :=
  match s with
  | String "-" r => (true, r)
  | String "+" r => (false, r)
  | _ => (false, s)
  end.

Definition signed (neg : bool) (n : Z) : Z := if neg then - n else n.

(** [int(s)]: blanks around, an optional sign, then digits.  [None] is
    [ValueError]. *)
Definition int (s : string) : option Z :=
  let '(neg, body) := cut_sign (strip s) in
  match span_digits body with
  | (String _ _ as d, EmptyString) => Some (signed neg (digits_acc 0 d))
  | _ => None
  end.

(** ** Floats as exact rationals *)

Definition pow10 (k : nat) : positive := Z.to_pos (10 ^ Z.of_nat k).

(** [float(s)]: blanks around, an optional sign, digits with an optional
    point ([12], [12.], [12.8], [.8]); exponents, [inf], [nan] and
    underscores are left out.  The exact model has no finite decimal for a
    rational such as 1/3, which [float_repr] below writes as [1/3]; [float]
    reads that form back.  [None] is [ValueError]. *)
Definition float (s : string) : option Q :=
  let '(neg, body) := cut_sign (strip s) in
  let '(ip, r1) := span_digits body in
  match r1 with
  | EmptyString =>
      if nonempty ip then Some (inject_Z (signed neg (digits_acc 0 ip)))
      else None
  | String "." r2 =>
      let '(fp, r3) := span_digits r2 in
      if negb (nonempty r3) && (nonempty ip || nonempty fp)
      then Some (signed neg (digits_acc 0 (ip ++ fp)) # pow10 (String.length fp))
      else None
  | String "/" r2 =>
      let '(dp, r3) := span_digits r2 in
      if negb (nonempty r3) && nonempty ip && (0 <? digits_acc 0 dp)
      then Some (signed neg (digits_acc 0 ip) # Z.to_pos (digits_acc 0 dp))
      else None
  | _ => None
  end.

(** The least [k] in [k0 .. k0 + fuel - 1] with [d] dividing [10^k]. *)
Fixpoint find_scale (fuel k0 : nat) (d : positive) : option nat :=
  match fuel with
  | O => None
  | S f =>
      if (10 ^ Z.of_nat k0) mod Z.pos d =? 0 then Some k0
      else find_scale f (S k0) d
  end.

(** [m / 10^k] written with [k] digits after the point, [m >= 0]. *)
Definition fixed_str (m : Z) (k : nat) : string :=
  str_of_nonneg (m / 10 ^ Z.of_nat k) ++
  String "." (emit k (m mod 10 ^ Z.of_nat k) EmptyString).

Definition sign_str (neg : bool) : string :=
  if neg then String "-" EmptyString else EmptyString.

(** [repr(x)], [f"{x}"] for a [float]: the decimal that reads back as [x],
    with at least one digit after the point ([640000.0], [0.078125]).  A
    rational without a finite decimal is written [p/q]. *)
Definition float_repr (x : Q) : string :=
  let x := Qred x in
  let neg := Qnum x <? 0 in
  let p := Z.abs (Qnum x) in
  match find_scale (S (Pos.size_nat (Qden x))) 1 (Qden x) with
  | Some k => sign_str neg ++ fixed_str (p * (10 ^ Z.of_nat k / Z.pos (Qden x))) k
  | None => sign_str neg ++ str_of_nonneg p ++ String "/" (str_of_nonneg (Z.pos (Qden x)))
  end.

(** [round(x)]: to the nearest integer, a tie to the even one. *)
Definition round (x : Q) : Z :=
  let f := Qfloor x in
  match Qcompare (x - inject_Z f)%Q (1 # 2)%Q with
  | Lt => f
  | Gt => f + 1
  | Eq => if Z.even f then f else f + 1
  end.

(** [f"{x:.kf}"]: [x] rounded to [k] digits after the point. *)
Definition format_fixed (k : nat) (x : Q) : string :=
  let m := round (x * inject_Z (10 ^ Z.of_nat k)) in
  sign_str (Qnum x <? 0) ++
  (if Nat.eqb k 0 then str_of_nonneg (Z.abs m) else fixed_str (Z.abs m) k).

(** [max(a, b)]: the first argument unless the second is greater. *)
Definition max (a b : Q) : Q := if Qlt_le_dec a b then b else a.

(** [s.startswith(p)] *)
Definition startswith (p s : string) : bool := String.prefix p s.

(** [c in chars] for one character. *)
Fixpoint char_in (c : ascii) (chars : string) : bool :=
  match chars with
  | EmptyString => false
  | String x r => Ascii.eqb c x || char_in c r
  end.

Fixpoint lstrip_chars (chars s : string) : string :=
  match s with
  | EmptyString => EmptyString
  | String c r => if char_in c chars then lstrip_chars chars r else s
  end.

Fixpoint rstrip_chars (chars s : string) : string :=
  match s with
  | EmptyString => EmptyString
  | String c r =>
      let r' := rstrip_chars chars r in
      if char_in c chars && negb (nonempty r') then EmptyString else String c r'
  end.

(** [s.strip(chars)] *)
Definition strip_chars (chars s : string) : string :=
  rstrip_chars chars (lstrip_chars chars s).

(** [s.replace(old, new)] for a non-empty [old]: every occurrence, left to
    right; [skip] counts the characters of an occurrence still to drop. *)
Fixpoint replace_from (old new : string) (skip : nat) (s : string) : string :=
  match s with
  | EmptyString => EmptyString
  | String c r =>
      match skip with
      | S k => replace_from old new k r
      | O =>
          if String.prefix old s
          then new ++ replace_from old new (String.length old - 1) r
          else String c (replace_from old new 0 r)
      end
  end.

Definition replace_sub (old new s : string) : string := replace_from old new 0 s.

(** The double quote. *)
Definition dquote : string := String (ascii_of_nat 34) EmptyString.

End Py.


(* ===================================================================== *)
(** * api_client.py: conversion with a five-minute cache *)
(* ===================================================================== *)

Module ApiClient.

Definition BASE_URL : string := "http://api.exchangerate.host".

Definition _CONVERT_CACHE_TTL : Q := 300.

(** A provider error code: a JSON number or a JSON string. *)
Inductive code_val :=
| CodeInt (n : Z)
| CodeStr (s : string).

(** The dict [convert] returns: [success] true with [from], [to], [amount]
    and [result], or [success] false with [error], [info] and, for
    [api_error], [code]. *)
Inductive conv_result :=
| Converted (from to : string) (amount result : Q)
| Failed (error : string) (code : option code_val) (info : string).

(** [result.get("success")] *)
Definition success (r : conv_result) : bool :=
  match r with Converted _ _ _ _ => true | Failed _ _ _ => false end.

(** [result.get("info")] *)
Definition get_info (r : conv_result) : option string :=
  match r with Converted _ _ _ _ => None | Failed _ _ info => Some info end.

(** The parameters of one GET on [BASE_URL/convert]. *)
Record request := {
  url : string;
  p_access_key : string;
  p_from : string;
  p_to : string;
  p_amount : Q;
}.

(** The JSON body of the provider, at the shape the code reads: every key
    may be absent, and [error] is a dict or a bare value. *)
Inductive error_field :=
| ErrorDict (code : option code_val) (info : option string)
| ErrorOther (v : code_val).

Record query := {
  q_from : option string;
  q_to : option string;
  q_amount : option Q;
}.

Record api_data := {
  d_success : bool;
  d_error : option error_field;
  d_info : option string;
  d_query : option query;
  d_result : option Q;
}.

(** What [requests.get(...)] followed by [r.json()] yields. *)
Inductive response :=
| RequestException (e : string)
| JsonValueError (e : string)
| Json (data : api_data).

(** The module state: the cache dict and, for the properties, the log of
    requests sent. *)
Record api := {
  _convert_cache : gmap (string * string) (conv_result * Q);
  requests : list request;
}.

Definition Qlt_bool (a b : Q) : bool := negb (Qle_bool b a).

Definition convert (net : request -> response) (now : Q)
    (access_key from_currency to_currency : string) (amount : Q)
    (st : api) : conv_result * api :=
  let from_currency := Py.upper from_currency in
  let to_currency := Py.upper to_currency in
  let cache_key := (from_currency, to_currency) in
  let hit :=
    match _convert_cache st !! cache_key with
    | Some (Converted _ _ c_amount c_result, cached_at) =>
        if Qlt_bool (now - cached_at) _CONVERT_CACHE_TTL then
          let rate := (c_result / Py.max c_amount (1 # 1000000000))%Q in
          Some (Converted from_currency to_currency amount (amount * rate))
        else None
    | _ => None
    end in
  match hit with
  | Some r => (r, st)
  | None =>
      let params :=
        {| url := BASE_URL ++ "/convert"; p_access_key := access_key;
           p_from := from_currency; p_to := to_currency; p_amount := amount |} in
      let sent :=
        {| _convert_cache := _convert_cache st;
           requests := (requests st ++ [params])%list |} in
      match net params with
      | RequestException e =>
          (Failed "request_failed" None ("Не удалось связаться с API: " ++ e), sent)
      | JsonValueError e => (Failed "invalid_response" None e, sent)
      | Json data =>
          if negb (d_success data) then
            let '(code, info) :=
              match d_error data with
              | None => (CodeStr "?", "Неизвестная ошибка API.")
              | Some (ErrorDict c i) =>
                  (default (CodeStr "?") c, default "Неизвестная ошибка API." i)
              | Some (ErrorOther v) => (v, default "Ошибка API." (d_info data))
              end in
            (Failed "api_error" (Some code) info, sent)
          else
            let q := default {| q_from := None; q_to := None; q_amount := None |}
                             (d_query data) in
            let result :=
              Converted (default from_currency (q_from q))
                        (default to_currency (q_to q))
                        (default amount (q_amount q))
                        (default 0%Q (d_result data)) in
            (result,
             {| _convert_cache := <[cache_key := (result, now)]> (_convert_cache st);
                requests := (requests st ++ [params])%list |})
      end
  end.

(** [check_currencies_available]: the pair [(ok, message)]. *)
Definition check_currencies_available (net : request -> response) (now : Q)
    (access_key from_currency to_currency : string) (st : api)
    : (bool * string) * api :=
  let from_currency := Py.upper from_currency in
  let to_currency := Py.upper to_currency in
  if String.eqb from_currency to_currency then
    ((false, "Валюта отправления и назначения не должны совпадать."), st)
  else
    let r := convert net now access_key from_currency to_currency 1 st in
    if negb (success (fst r)) then
      ((false, default "Валюта недоступна в API." (get_info (fst r))), snd r)
    else ((true, "OK"), snd r).

(** ** Reading [config.env] *)


(** One line of the file, applied to the dict read so far. *)
Definition config_line (env : gmap string string) (line : string) : gmap string string :=
  let line := Py.strip line in
  if negb (Py.nonempty line) || Py.startswith "#" line then env
  else if Py.contains "=" line then
    match Py.cut "=" line with
    | (k, Some v) =>
        <[Py.strip k := Py.strip_chars "'" (Py.strip_chars Py.dquote (Py.strip v))]> env
    | (_, None) => env
    end
  else env.

(** The loop over the lines of the file. *)
Definition parse_config (lines : list string) : gmap string string :=
  fold_left config_line lines ∅.


End ApiClient.

(* ===================================================================== *)
(** * The database module [db] *)
(* ===================================================================== *)

Module Db.

Record Trip := {
  id : Z;
  owner : Z;
  name : string;
  home_currency : string;
  dest_currency : string;
  rate : Q;
  balance_dest : Q;
}.

Record Expense := {
  trip_id : Z;
  amount_dest : Q;
  amount_home : Q;
}.

(** The row [get_user_state] returns: [st["state"]], [st["state_data"]]. *)
Record UserState := {
  state : string;
  state_data : option string;
}.

(** Trips by id, expenses in the order they were added, one pending state and
    one active-trip pointer for each user.  Timestamps are left out. *)
Record t := {
  user_states : gmap Z UserState;
  trips : gmap Z Trip;
  expenses : list Expense;
  active_trips : gmap Z Z;
  next_trip_id : Z;
}.

(** Modelled from the spec: [db.set_user_state] is not in the sources; the
    state store holds one state name and payload for a user, overwritten on
    each transition. *)
Definition set_user_state (user_id : Z) (st : string) (data : option string)
    (d : t) : t :=
  {| user_states := <[user_id := {| state := st; state_data := data |}]> (user_states d);
     trips := trips d; expenses := expenses d;
     active_trips := active_trips d; next_trip_id := next_trip_id d |}.

(** Modelled from the spec: [db.clear_state] is not in the sources; clearing
    leaves the user with no pending state. *)
Definition clear_state (user_id : Z) (d : t) : t :=
  {| user_states := delete user_id (user_states d);
     trips := trips d; expenses := expenses d;
     active_trips := active_trips d; next_trip_id := next_trip_id d |}.

(** Modelled from the spec: [db.get_user_state] is not in the sources. *)
Definition get_user_state (user_id : Z) (d : t) : option UserState :=
  user_states d !! user_id.

(** Modelled from the spec: [db.get_trip] is not in the sources; a read of
    the trip with this id when the caller owns it. *)
Definition get_trip (trip : Z) (user_id : Z) (d : t) : option Trip :=
  match trips d !! trip with
  | Some tr => if owner tr =? user_id then Some tr else None
  | None => None
  end.

(** Modelled from the spec: [db.get_user_trips] is not in the sources; the
    caller's trips, here by ascending id. *)
Definition get_user_trips (user_id : Z) (d : t) : list Trip :=
  omap (fun i => get_trip i user_id d)
       (map Z.of_nat (seq 0 (Z.to_nat (next_trip_id d)))).

(** Modelled from the spec: [db.get_active_trip_id] is not in the sources. *)
Definition get_active_trip_id (user_id : Z) (d : t) : option Z :=
  active_trips d !! user_id.

(** Modelled from the spec: [db.create_trip] is not in the sources; it
    inserts a trip whose balance is [amount_dest], makes it the owner's
    active trip and returns its id; it fails, changing nothing, when the
    two currencies are equal. *)
Definition create_trip (user_id : Z) (nm home dest : string) (r : Q)
    (amount_home amount_dest : Q) (d : t) : option Z * t :=
  if String.eqb home dest then (None, d)
  else
    let i := next_trip_id d in
    (Some i,
     {| user_states := user_states d;
        trips := <[i := {| id := i; owner := user_id; name := nm;
                           home_currency := home; dest_currency := dest;
                           rate := r; balance_dest := amount_dest |}]> (trips d);
        expenses := expenses d;
        active_trips := <[user_id := i]> (active_trips d);
        next_trip_id := i + 1 |}).

(** Modelled from the spec: [db.update_trip_rate] is not in the sources; it
    requires a positive rate and an owned trip, and writes the rate field
    only. *)
Definition update_trip_rate (trip user_id : Z) (new_rate : Q) (d : t) : bool * t :=
  match get_trip trip user_id d with
  | Some tr =>
      if ApiClient.Qlt_bool 0 new_rate then
        (true,
         {| user_states := user_states d;
            trips := <[trip := {| id := id tr; owner := owner tr; name := name tr;
                                  home_currency := home_currency tr;
                                  dest_currency := dest_currency tr;
                                  rate := new_rate;
                                  balance_dest := balance_dest tr |}]> (trips d);
            expenses := expenses d;
            active_trips := active_trips d; next_trip_id := next_trip_id d |})
      else (false, d)
  | None => (false, d)
  end.

(** Modelled from the spec: [db.add_expense] is not in the sources; it
    declines (returns false, changing nothing) when the trip is not found or
    not owned by the caller, when [amount_dest <= 0] or when [amount_dest]
    exceeds the balance; otherwise it decrements the balance and appends one
    expense row. *)
Definition add_expense (trip user_id : Z) (a_dest a_home : Q) (d : t) : bool * t :=
  match get_trip trip user_id d with
  | Some tr =>
      if Qle_bool a_dest 0 then (false, d)
      else if ApiClient.Qlt_bool (balance_dest tr) a_dest then (false, d)
      else
        (true,
         {| user_states := user_states d;
            trips := <[trip := {| id := id tr; owner := owner tr; name := name tr;
                                  home_currency := home_currency tr;
                                  dest_currency := dest_currency tr;
                                  rate := rate tr;
                                  balance_dest := (balance_dest tr - a_dest)%Q |}]> (trips d);
            expenses := (expenses d ++
                         [{| trip_id := trip; amount_dest := a_dest;
                             amount_home := a_home |}])%list;
            active_trips := active_trips d; next_trip_id := next_trip_id d |})
  | None => (false, d)
  end.

(** Modelled from the spec: [db.get_expenses] is not in the sources; the
    expense rows of an owned trip. *)
Definition get_expenses (trip user_id : Z) (d : t) : list Expense :=
  match get_trip trip user_id d with
  | Some _ => filter (fun e => trip_id e = trip) (expenses d)
  | None => []
  end.

End Db.

(* ===================================================================== *)
(** * bot.py: the conversation flow *)
(* ===================================================================== *)

Module Bot.

(** ** Transport *)

(** An inline keyboard is its buttons (label, callback data); the reply
    keyboard is its rows of labels. *)
Inductive markup :=
| InlineKeyboard (row_width : nat) (buttons : list (string * string))
| ReplyKeyboard (rows : list (list string)).

Inductive sent :=
| SendMessage (chat_id : Z) (text : string) (reply_markup : option markup)
| AnswerCallbackQuery (callback_id : Z).

(** A text message: [message.from_user.id], [message.chat.id],
    [message.text]. *)
Record Message := {
  m_user_id : Z;
  m_chat_id : Z;
  m_text : string;
}.

(** A button press: [c.id], [c.from_user.id], [c.message.chat.id],
    [c.data]. *)
Record CallbackQuery := {
  c_id : Z;
  c_user_id : Z;
  c_chat_id : Z;
  c_data : string;
}.

(** ** The world and the handler monad *)

Record world := {
  db : Db.t;
  api : ApiClient.api;
  outbox : list sent;
}.

(** What the handlers take from outside: the country table of
    [current_api], the two formatting helpers of [db], the provider behind
    [requests.get], the clock and the access key of [config.env]. *)
Record env := {
  country_to_currency : string -> option string;
  format_balance : option Db.Trip -> string;
  format_expense_line : Db.Expense -> string -> string -> string;
  net : ApiClient.request -> ApiClient.response;
  now : Q;
  ACCESS_KEY : string;
}.

Inductive exn := ValueError | ZeroDivisionError | TypeError.

Inductive res (A : Type) :=
| Ret (a : A)
| Raise (e : exn).
Arguments Ret {A} a.
Arguments Raise {A} e.

Definition M (A : Type) : Type := world -> res A * world.

Definition ret {A} (a : A) : M A := fun w => (Ret a, w).

Definition bind {A B} (m : M A) (k : A -> M B) : M B :=
  fun w => match m w with
           | (Ret a, w') => k a w'
           | (Raise e, w') => (Raise e, w')
           end.

Definition raise {A} (e : exn) : M A := fun w => (Raise e, w).

Notation "'do' x <- m ; k" := (bind m (fun x => k))
  (at level 10, x name, m at level 100, k at level 200).
Notation "m ;; k" := (bind m (fun _ => k))
  (at level 100, k at level 200, right associativity).

Definition read_db {A} (f : Db.t -> A) : M A := fun w => (Ret (f (db w)), w).

Definition write_db (f : Db.t -> Db.t) : M unit :=
  fun w => (Ret tt, {| db := f (db w); api := api w; outbox := outbox w |}).

Definition call_db {A} (f : Db.t -> A * Db.t) : M A :=
  fun w => (Ret (fst (f (db w))),
            {| db := snd (f (db w)); api := api w; outbox := outbox w |}).

Definition emit (s : sent) : M unit :=
  fun w => (Ret tt, {| db := db w; api := api w; outbox := (outbox w ++ [s])%list |}).

(** [bot.send_message(chat_id, text, reply_markup=...)] *)
Definition send_message (chat_id : Z) (text : string) (reply_markup : option markup) : M unit :=
  emit (SendMessage chat_id text reply_markup).

(** [bot.answer_callback_query(c.id)] *)
Definition answer_callback_query (callback_id : Z) : M unit :=
  emit (AnswerCallbackQuery callback_id).

(** [convert(...)] of [api_client], on the world's cache. *)
Definition convert (E : env) (access_key from_currency to_currency : string)
    (amount : Q) : M ApiClient.conv_result :=
  fun w => let r := ApiClient.convert (net E) (now E) access_key
                      from_currency to_currency amount (api w) in
           (Ret (fst r), {| db := db w; api := snd r; outbox := outbox w |}).

(** [a / b] on floats. *)
Definition div (a b : Q) : M Q :=
  if Qeq_bool b 0 then raise ZeroDivisionError else ret (a / b)%Q.

Definition nl : string := String (ascii_of_nat 10) EmptyString.

(** Truth value of [str or None]. *)
Definition truthy (o : option string) : bool :=
  match o with Some s => Py.nonempty s | None => false end.

(** ** Keyboards *)

Definition main_menu_markup : markup :=
  InlineKeyboard 1
    [("Создать новое путешествие", "menu_newtrip");
     ("Мои путешествия", "menu_trips");
     ("Баланс", "menu_balance");
     ("История расходов", "menu_history");
     ("Изменить курс", "menu_setrate");
     ("Удалить путешествие", "menu_deletetrip")].

Definition trips_list_markup (trips : list Db.Trip) (prefix : string) : markup :=
  InlineKeyboard 1
    (app (map (fun t => (Db.name t ++ " (" ++ Db.dest_currency t ++ ")",
                         prefix ++ Py.str_of_int (Db.id t))) trips)
         [("← Назад", "menu_main")]).

Definition back_to_main_markup : markup :=
  InlineKeyboard 3 [("← В главное меню", "menu_main")].

Definition MENU_BTN_NEWTRIP : string := "Создать путешествие".
Definition MENU_BTN_TRIPS : string := "Мои путешествия".
Definition MENU_BTN_BALANCE : string := "Баланс".
Definition MENU_BTN_HISTORY : string := "История расходов".
Definition MENU_BTN_SETRATE : string := "Изменить курс".
Definition MENU_BTN_DELETETRIP : string := "Удалить путешествие".

Definition main_menu_text : string :=
  "Главное меню. Выберите действие:" ++ nl ++ nl ++
  "• Создать новое путешествие — добавить поездку с валютной парой и курсом." ++ nl ++
  "• Мои путешествия — переключиться между поездками." ++ nl ++
  "• Баланс — посмотреть остаток по активному путешествию." ++ nl ++
  "• История расходов — список трат." ++ nl ++
  "• Изменить курс — задать курс вручную для выбранной поездки." ++ nl ++
  "• Удалить путешествие — удалить поездку и все её расходы.".

Definition send_main_menu (chat_id : Z) (text : option string) : M unit :=
  send_message chat_id (if truthy text then default EmptyString text else main_menu_text)
               (Some main_menu_markup).

(** ** A number typed as a message *)

(** [re.match(r"^-?\d+\.?\d*$", s)] *)
Definition number_re (s : string) : bool :=
  let body := match s with String "-" r => r | _ => s end in
  let '(ip, r1) := Py.span_digits body in
  Py.nonempty ip &&
  match r1 with
  | EmptyString => true
  | String "." r2 => let '(_, r3) := Py.span_digits r2 in negb (Py.nonempty r3)
  | _ => false
  end.

Definition is_number_message (text : string) : bool :=
  if negb (Py.nonempty text) || negb (Py.nonempty (Py.strip text)) then false
  else number_re (Py.replace "," "." (Py.strip text)).

Definition parse_amount (text : string) : M Q :=
  match Py.float (Py.replace "," "." (Py.strip text)) with
  | Some x => ret x
  | None => raise ValueError
  end.

(** The number a message holds when it passes [is_number_message]. *)
Definition amount_of (text : string) : option Q :=
  if is_number_message text then Py.float (Py.replace "," "." (Py.strip text)) else None.

(** [not is_number_message(text) or parse_amount(text) <= 0] *)
Definition not_positive_number (text : string) : M bool :=
  if negb (is_number_message text) then ret true
  else do x <- parse_amount text; ret (Qle_bool x 0).

(** ** Creating a trip *)

Definition start_new_trip_flow (chat_id user_id : Z) : M unit :=
  write_db (Db.set_user_state user_id "newtrip_country_from" None) ;;
  send_message chat_id
    "Введите страну отправления (домашнюю валюту), например: Россия, США, Китай."
    None.

Definition handle_newtrip_country_from (E : env) (message : Message) (user_id : Z) : M unit :=
  let country := Py.strip (m_text message) in
  let cur := country_to_currency E country in
  if negb (truthy cur) then
    send_message (m_chat_id message)
      "Не удалось определить валюту по этой стране. Введите страну ещё раз или код валюты (например RUB, USD)."
      None
  else
    let cur := default EmptyString cur in
    write_db (Db.set_user_state user_id "newtrip_country_to" (Some cur)) ;;
    send_message (m_chat_id message)
      ("Валюта отправления: " ++ cur ++
       ". Теперь введите страну назначения (валюту поездки), например: Китай, Таиланд.")
      None.

(** The destination currency of the input: the table's answer, else the
    input itself when it is three letters, else nothing. *)
Definition resolve_dest (E : env) (country : string) : option string :=
  let cur := country_to_currency E country in
  if negb (truthy cur) then
    if Nat.eqb (String.length country) 3 && Py.isalpha country
    then Some (Py.upper country)
    else None
  else cur.

Definition handle_newtrip_country_to (E : env) (message : Message) (user_id : Z)
    (state_data : string) : M unit :=
  let home_currency := state_data in
  let country := Py.strip (m_text message) in
  match resolve_dest E country with
  | None =>
      send_message (m_chat_id message)
        "Не удалось определить валюту. Введите страну или код валюты (3 буквы)."
        None
  | Some cur =>
      if String.eqb cur home_currency then
        send_message (m_chat_id message)
          "Валюта назначения должна отличаться от домашней. Введите другую страну."
          None
      else
        write_db (Db.set_user_state user_id "newtrip_choose_rate_source"
                    (Some (home_currency ++ "|" ++ cur ++ "|" ++ country))) ;;
        send_message (m_chat_id message)
          ("Пара валют: " ++ home_currency ++ " → " ++ cur ++ ". Как задать курс?" ++ nl ++ nl ++
           "Рекомендуем «Ввести вручную» — так не будет ошибок лимита API.")
          (Some (InlineKeyboard 1
                   [("Ввести курс вручную (по обменнику)", "newtrip_manual_rate_now");
                    ("Получить текущий курс из API", "newtrip_fetch_rate")]))
  end.

Definition handle_newtrip_initial_sum (E : env) (message : Message) (user_id : Z)
    (state_data : string) : M unit :=
  match Py.split "|" 3 state_data with
  | home_cur :: dest_cur :: rate_field :: name :: _ =>
      do rate_str <- match Py.float rate_field with
                     | Some r => ret r
                     | None => raise ValueError
                     end;
      do bad <- not_positive_number (m_text message);
      if bad then
        send_message (m_chat_id message)
          "Введите положительное число — сумму в валюте отправления (домашней)."
          None
      else
        do amount_home <- parse_amount (m_text message);
        do amount_dest <- div amount_home rate_str;
        do trip_id <- call_db (Db.create_trip user_id name home_cur dest_cur rate_str
                                 amount_home amount_dest);
        write_db (Db.clear_state user_id) ;;
        do trip <- read_db (fun d => match trip_id with
                                     | Some i => Db.get_trip i user_id d
                                     | None => None
                                     end);
        send_message (m_chat_id message)
          ("Путешествие «" ++ name ++ "» создано." ++ nl ++ format_balance E trip ++ nl ++ nl ++
           "Теперь можно вводить суммы расходов в " ++ dest_cur ++
           " — бот будет пересчитывать в " ++ home_cur ++ " и предлагать учесть трату.")
          (Some main_menu_markup)
  | _ =>
      write_db (Db.clear_state user_id) ;;
      send_main_menu (m_chat_id message)
        (Some "Что-то пошло не так. Начните создание поездки заново.")
  end.

(** ** Buttons of the trip-creation flow *)

(** The state row when it is in state [expected] with a payload. *)
Definition pending (expected : string) (st : option Db.UserState) : option string :=
  match st with
  | Some row =>
      if String.eqb (Db.state row) expected && truthy (Db.state_data row)
      then Db.state_data row else None
  | None => None
  end.

Definition limit_words : list string :=
  ["limit"; "rate"; "exceeded"; "limitation"; "maximum"].

(** [any(w in info for w in (...))] on the lowered failure text. *)
Definition is_limit (r : ApiClient.conv_result) : bool :=
  let info := Py.lower (default EmptyString (ApiClient.get_info r)) in
  existsb (fun w => Py.contains w info) limit_words.

Definition cb_newtrip_fetch_rate (E : env) (c : CallbackQuery) : M unit :=
  answer_callback_query (c_id c) ;;
  let user_id := c_user_id c in
  do st <- read_db (Db.get_user_state user_id);
  match pending "newtrip_choose_rate_source" st with
  | None =>
      send_message (c_chat_id c) "Сессия устарела. Начните создание поездки заново."
        (Some main_menu_markup)
  | Some state_data =>
      match Py.split "|" 2 state_data with
      | home_currency :: cur :: rest =>
          let country := match rest with p2 :: _ => Py.strip p2 | [] => cur end in
          do result <- convert E (ACCESS_KEY E) home_currency cur 1;
          match result with
          | ApiClient.Failed _ _ _ =>
              write_db (Db.set_user_state user_id "newtrip_manual_rate"
                          (Some (home_currency ++ "|" ++ cur ++ "|" ++ country))) ;;
              let msg :=
                if is_limit result
                then "Превышен лимит запросов к сервису курсов. Введите курс вручную (например по обменнику)."
                else "Сервис курсов временно недоступен. Введите курс вручную." in
              send_message (c_chat_id c)
                (msg ++ nl ++ nl ++ "Сколько " ++ cur ++ " за 1 " ++ home_currency ++
                 "? (одно число)")
                None
          | ApiClient.Converted _ _ _ api_dest_per_home =>
              do rate <- div 1 api_dest_per_home;
              write_db (Db.set_user_state user_id "newtrip_confirm_rate"
                          (Some (home_currency ++ "|" ++ cur ++ "|" ++ Py.float_repr rate ++
                                 "|" ++ country))) ;;
              send_message (c_chat_id c)
                ("Текущий курс: 1 " ++ cur ++ " = " ++ Py.format_fixed 4 rate ++ " " ++
                 home_currency ++ " (1 " ++ home_currency ++ " = " ++
                 Py.format_fixed 4 api_dest_per_home ++ " " ++ cur ++ ")." ++ nl ++ nl ++
                 "Вас устраивает?")
                (Some (InlineKeyboard 2
                         [("Да", "newtrip_rate_ok");
                          ("Нет, ввести вручную", "newtrip_rate_manual")]))
          end
      | _ =>
          write_db (Db.clear_state user_id) ;;
          send_main_menu (c_chat_id c) None
      end
  end.

Definition cb_newtrip_manual_rate_now (c : CallbackQuery) : M unit :=
  answer_callback_query (c_id c) ;;
  let user_id := c_user_id c in
  do st <- read_db (Db.get_user_state user_id);
  match pending "newtrip_choose_rate_source" st with
  | None =>
      send_message (c_chat_id c) "Сессия устарела. Начните заново." (Some main_menu_markup)
  | Some state_data =>
      match Py.split "|" 2 state_data with
      | home_cur :: dest_cur :: rest =>
          let country := match rest with p2 :: _ => Py.strip p2 | [] => dest_cur end in
          write_db (Db.set_user_state user_id "newtrip_manual_rate"
                      (Some (home_cur ++ "|" ++ dest_cur ++ "|" ++ country))) ;;
          send_message (c_chat_id c)
            ("Введите курс: сколько " ++ dest_cur ++ " за 1 " ++ home_cur ++
             "? (одно число, например 12.8)")
            None
      | _ =>
          write_db (Db.clear_state user_id) ;;
          send_main_menu (c_chat_id c) None
      end
  end.

Definition cb_newtrip_rate_ok (c : CallbackQuery) : M unit :=
  answer_callback_query (c_id c) ;;
  let user_id := c_user_id c in
  do st <- read_db (Db.get_user_state user_id);
  match pending "newtrip_confirm_rate" st with
  | None =>
      send_message (c_chat_id c) "Сессия устарела. Начните создание поездки заново."
        (Some main_menu_markup)
  | Some state_data =>
      match Py.split "|" 3 state_data with
      | home_cur :: dest_cur :: rate :: rest =>
          let name := match rest with
                      | p3 :: _ => if Py.nonempty p3 then Py.strip p3 else dest_cur
                      | [] => dest_cur
                      end in
          write_db (Db.set_user_state user_id "newtrip_initial_sum"
                      (Some (home_cur ++ "|" ++ dest_cur ++ "|" ++ rate ++ "|" ++ name))) ;;
          send_message (c_chat_id c)
            ("Курс принят. Введите начальную сумму в домашней валюте (" ++ home_cur ++
             ") — она будет конвертирована в " ++ dest_cur ++ " и станет стартовым балансом.")
            None
      | _ =>
          write_db (Db.clear_state user_id) ;;
          send_main_menu (c_chat_id c) (Some "Ошибка данных. Создайте поездку заново.")
      end
  end.

Definition cb_newtrip_rate_manual (c : CallbackQuery) : M unit :=
  answer_callback_query (c_id c) ;;
  let user_id := c_user_id c in
  do st <- read_db (Db.get_user_state user_id);
  match pending "newtrip_confirm_rate" st with
  | None =>
      send_message (c_chat_id c) "Сессия устарела. Начните заново." (Some main_menu_markup)
  | Some state_data =>
      match Py.split "|" 3 state_data with
      | home_cur :: dest_cur :: rest =>
          let name := match rest with
                      | _ :: p3 :: _ => if Py.nonempty p3 then Py.strip p3 else dest_cur
                      | _ => dest_cur
                      end in
          write_db (Db.set_user_state user_id "newtrip_manual_rate"
                      (Some (home_cur ++ "|" ++ dest_cur ++ "|" ++ name))) ;;
          send_message (c_chat_id c)
            ("Введите курс вручную: сколько " ++ dest_cur ++ " за 1 " ++ home_cur ++
             "? (одно число, например 12.8)")
            None
      | _ =>
          write_db (Db.clear_state user_id) ;;
          send_main_menu (c_chat_id c) None
      end
  end.

(** ** Confirming an expense *)

(** The amounts travel in the callback data as integers: hundredths. *)
Definition encode_amount (amount : Q) : Z := Py.round (amount * 100).

Definition decode_amount (n : Z) : Q := (inject_Z n / 100)%Q.

Definition expense_confirm_markup (trip_id : Z) (amount_dest amount_home : Q) : markup :=
  let a_d := encode_amount amount_dest in
  let a_h := encode_amount amount_home in
  InlineKeyboard 2
    [("✅ Да", "ex_" ++ Py.str_of_int trip_id ++ "_" ++ Py.str_of_int a_d ++ "_" ++
               Py.str_of_int a_h);
     ("❌ Нет", "expense_no")].

(** The three numbers of [ex_<trip>_<dest>_<home>]; [None] is the
    [ValueError] of [int()]. *)
Definition parse_expense_data (parts : list string) : option (Z * Q * Q) :=
  match parts with
  | [_; p1; p2; p3] =>
      match Py.int p1, Py.int p2, Py.int p3 with
      | Some trip_id, Some a_d, Some a_h =>
          Some (trip_id, decode_amount a_d, decode_amount a_h)
      | _, _, _ => None
      end
  | _ => None
  end.

Definition cb_expense_confirm (E : env) (c : CallbackQuery) : M unit :=
  answer_callback_query (c_id c) ;;
  let user_id := c_user_id c in
  let parts := Py.split_all "_" (c_data c) in
  if negb (Nat.eqb (length parts) 4) then
    send_message (c_chat_id c) "Ошибка данных." None
  else
    match parse_expense_data parts with
    | None => send_message (c_chat_id c) "Неверный формат." None
    | Some (trip_id, amount_dest, amount_home) =>
        do ok <- call_db (Db.add_expense trip_id user_id amount_dest amount_home);
        if negb ok then
          send_message (c_chat_id c)
            "Не удалось учесть расход (недостаточно средств или неверная поездка)."
            (Some back_to_main_markup)
        else
          do trip <- read_db (Db.get_trip trip_id user_id);
          send_message (c_chat_id c) ("Расход учтён. " ++ format_balance E trip)
            (Some back_to_main_markup)
    end.

(** ** Any other message *)

(** [trip["key"]] on the result of [db.get_trip]: [None] is not
    subscriptable. *)
Definition subscript (trip : option Db.Trip) : M Db.Trip :=
  match trip with Some t => ret t | None => raise TypeError end.

(** The list of trips with a mark on the active one. *)
Definition trip_lines (header : string) (trips : list Db.Trip) (active_id : option Z)
    : list string :=
  header ::
  map (fun t =>
         let mark := match active_id with
                     | Some a => if Db.id t =? a then " ✓" else EmptyString
                     | None => EmptyString
                     end in
         "• " ++ Db.name t ++ " (" ++ Db.dest_currency t ++ ")" ++ mark) trips.

(** [not trip_id] for an id or [None]. *)
Definition no_id (trip_id : option Z) : bool :=
  match trip_id with Some i => i =? 0 | None => true end.

Definition handle_message (E : env) (message : Message) : M unit :=
  let user_id := m_user_id message in
  let chat_id := m_chat_id message in
  do st <- read_db (Db.get_user_state user_id);
  let state := match st with Some row => Db.state row | None => EmptyString end in
  let state_data :=
    match st with
    | Some row => default EmptyString (Db.state_data row)
    | None => EmptyString
    end in
  if String.eqb state "newtrip_country_from" then
    handle_newtrip_country_from E message user_id
  else if String.eqb state "newtrip_country_to" then
    handle_newtrip_country_to E message user_id state_data
  else if String.eqb state "newtrip_initial_sum" then
    handle_newtrip_initial_sum E message user_id state_data
  else if String.eqb state "newtrip_manual_rate" then
    do bad <- not_positive_number (m_text message);
    if bad then
      send_message chat_id
        "Введите положительное число — курс (сколько валюты назначения за 1 единицу домашней)."
        None
    else
      do manual_dest_per_home <- parse_amount (m_text message);
      do rate <- div 1 manual_dest_per_home;
      match Py.split "|" 2 state_data with
      | home_cur :: dest_cur :: rest =>
          let name := match rest with
                      | p2 :: _ => if Py.nonempty p2 then Py.strip p2 else dest_cur
                      | [] => dest_cur
                      end in
          write_db (Db.set_user_state user_id "newtrip_initial_sum"
                      (Some (home_cur ++ "|" ++ dest_cur ++ "|" ++ Py.float_repr rate ++
                             "|" ++ name))) ;;
          send_message chat_id
            ("Курс принят: 1 " ++ home_cur ++ " = " ++ Py.float_repr rate ++ " " ++ dest_cur ++
             ". Введите начальную сумму в " ++ home_cur ++ ":")
            None
      | _ =>
          write_db (Db.clear_state user_id) ;;
          send_main_menu chat_id (Some "Ошибка. Начните создание заново.")
      end
  else if String.eqb state "setrate_trip" then
    do bad <- not_positive_number (m_text message);
    if bad then
      send_message chat_id "Введите положительное число — новый курс." None
    else
      match Py.int state_data with
      | None =>
          write_db (Db.clear_state user_id) ;;
          send_main_menu chat_id None
      | Some trip_id =>
          do trip <- read_db (Db.get_trip trip_id user_id);
          match trip with
          | None =>
              write_db (Db.clear_state user_id) ;;
              send_message chat_id "Путешествие не найдено." (Some main_menu_markup)
          | Some _ =>
              do new_rate <- parse_amount (m_text message);
              call_db (Db.update_trip_rate trip_id user_id new_rate) ;;
              write_db (Db.clear_state user_id) ;;
              do trip <- read_db (Db.get_trip trip_id user_id);
              do trip <- subscript trip;
              send_message chat_id
                ("Курс обновлён: 1 " ++ Db.home_currency trip ++ " = " ++
                 Py.float_repr (Db.rate trip) ++ " " ++ Db.dest_currency trip ++ ".")
                (Some main_menu_markup)
          end
      end
  else
    let text := Py.strip (m_text message) in
    if String.eqb text MENU_BTN_NEWTRIP then
      start_new_trip_flow chat_id user_id
    else if String.eqb text MENU_BTN_TRIPS then
      do trips <- read_db (Db.get_user_trips user_id);
      match trips with
      | [] =>
          send_message chat_id
            "У вас пока нет путешествий. Создайте первое — кнопка «Создать путешествие»."
            (Some back_to_main_markup)
      | _ =>
          do active_id <- read_db (Db.get_active_trip_id user_id);
          send_message chat_id
            (Py.join nl (trip_lines "Выберите путешествие:" trips active_id))
            (Some (trips_list_markup trips "switch_"))
      end
    else if String.eqb text MENU_BTN_BALANCE then
      do trip_id <- read_db (Db.get_active_trip_id user_id);
      if no_id trip_id then
        send_message chat_id
          "Нет активного путешествия. Выберите или создайте в «Мои путешествия»."
          (Some back_to_main_markup)
      else
        do trip <- read_db (Db.get_trip (default 0 trip_id) user_id);
        match trip with
        | Some t =>
            send_message chat_id ("«" ++ Db.name t ++ "»" ++ nl ++ format_balance E trip)
              (Some back_to_main_markup)
        | None =>
            send_message chat_id "Путешествие не найдено." (Some back_to_main_markup)
        end
    else if String.eqb text MENU_BTN_HISTORY then
      do trip_id <- read_db (Db.get_active_trip_id user_id);
      if no_id trip_id then
        send_message chat_id
          "Нет активного путешествия. Выберите поездку в «Мои путешествия»."
          (Some back_to_main_markup)
      else
        do trip <- read_db (Db.get_trip (default 0 trip_id) user_id);
        match trip with
        | None =>
            send_message chat_id "Путешествие не найдено." (Some back_to_main_markup)
        | Some t =>
            do expenses <- read_db (Db.get_expenses (default 0 trip_id) user_id);
            match expenses with
            | [] =>
                send_message chat_id ("По «" ++ Db.name t ++ "» расходов пока нет.")
                  (Some back_to_main_markup)
            | _ =>
                send_message chat_id
                  (Py.join nl
                     (("История: «" ++ Db.name t ++ "»") :: EmptyString ::
                      map (fun e => format_expense_line E e (Db.dest_currency t)
                                      (Db.home_currency t)) expenses))
                  (Some back_to_main_markup)
            end
        end
    else if String.eqb text MENU_BTN_SETRATE then
      do trips <- read_db (Db.get_user_trips user_id);
      match trips with
      | [] =>
          send_message chat_id
            "Нет путешествий. Создайте поездку в «Создать путешествие»."
            (Some back_to_main_markup)
      | _ =>
          send_message chat_id "Выберите путешествие для смены курса:"
            (Some (trips_list_markup trips "setrate_"))
      end
    else if String.eqb text MENU_BTN_DELETETRIP then
      do trips <- read_db (Db.get_user_trips user_id);
      match trips with
      | [] =>
          send_message chat_id "Нет путешествий для удаления." (Some back_to_main_markup)
      | _ =>
          send_message chat_id
            "Выберите путешествие для удаления (вместе с ним удалятся все расходы):"
            (Some (trips_list_markup trips "del_"))
      end
    else if is_number_message (m_text message) then
      do trip_id <- read_db (Db.get_active_trip_id user_id);
      if no_id trip_id then
        send_message chat_id
          "Сначала выберите или создайте путешествие (меню «Мои путешествия» или /switch)."
          (Some main_menu_markup)
      else
        do trip <- read_db (Db.get_trip (default 0 trip_id) user_id);
        match trip with
        | None => send_message chat_id "Путешествие не найдено." (Some main_menu_markup)
        | Some t =>
            do amount_dest <- parse_amount (m_text message);
            if Qle_bool amount_dest 0 then
              send_message chat_id "Введите положительную сумму расхода." None
            else
              let amount_home := (amount_dest * Db.rate t)%Q in
              send_message chat_id
                (Py.format_fixed 2 amount_dest ++ " " ++ Db.dest_currency t ++ " = " ++
                 Py.format_fixed 2 amount_home ++ " " ++ Db.home_currency t ++
                 ". Учесть как расход?")
                (Some (expense_confirm_markup (default 0 trip_id) amount_dest amount_home))
        end
    else
      send_main_menu chat_id
        (Some "Не понял. Введите число для записи расхода по активному путешествию или выберите действие в меню.").

(** ** Configuration at import time *)


(** ** Buttons that carry a trip id *)

Definition trip_confirm_delete_markup (trip_id : Z) : markup :=
  InlineKeyboard 2
    [("Удалить", "del_confirm_" ++ Py.str_of_int trip_id);
     ("Отмена", "del_cancel")].

(** [int(c.data.replace(prefix, ""))]; [None] is the [ValueError] the
    handlers catch. *)
Definition callback_trip_id (prefix data : string) : option Z :=
  Py.int (Py.replace_sub prefix EmptyString data).


Definition cb_menu_setrate (c : CallbackQuery) : M unit :=
  answer_callback_query (c_id c) ;;
  let user_id := c_user_id c in
  do trips <- read_db (Db.get_user_trips user_id);
  match trips with
  | [] =>
      send_message (c_chat_id c) "Нет путешествий. Сначала создайте поездку."
        (Some back_to_main_markup)
  | _ =>
      send_message (c_chat_id c) "Выберите путешествие, для которого изменить курс:"
        (Some (trips_list_markup trips "setrate_"))
  end.


Definition cb_menu_deletetrip (c : CallbackQuery) : M unit :=
  answer_callback_query (c_id c) ;;
  let user_id := c_user_id c in
  do trips <- read_db (Db.get_user_trips user_id);
  match trips with
  | [] =>
      send_message (c_chat_id c) "Нет путешествий для удаления." (Some back_to_main_markup)
  | _ =>
      send_message (c_chat_id c)
        "Выберите путешествие для удаления (вместе с ним удалятся все расходы):"
        (Some (trips_list_markup trips "del_"))
  end.

Definition cb_del_cancel (c : CallbackQuery) : M unit :=
  answer_callback_query (c_id c) ;;
  send_main_menu (c_chat_id c) (Some "Удаление отменено.").

Definition cb_del_choose (c : CallbackQuery) : M unit :=
  answer_callback_query (c_id c) ;;
  match callback_trip_id "del_" (c_data c) with
  | None => ret tt
  | Some trip_id =>
      let user_id := c_user_id c in
      do trip <- read_db (Db.get_trip trip_id user_id);
      match trip with
      | None =>
          send_message (c_chat_id c) "Путешествие не найдено." (Some back_to_main_markup)
      | Some t =>
          send_message (c_chat_id c)
            ("Удалить путешествие «" ++ Db.name t ++ "» (" ++ Db.dest_currency t ++
             ")? Все расходы по этой поездке будут удалены.")
            (Some (trip_confirm_delete_markup trip_id))
      end
  end.

Definition cb_expense_no (c : CallbackQuery) : M unit :=
  answer_callback_query (c_id c) ;;
  send_message (c_chat_id c) "Расход не учтён." (Some back_to_main_markup).

(** ** The filters of the callback handlers *)

(** The handlers of button presses, in the order they are registered. *)
Inductive callback_handler :=
| H_menu_main | H_menu_newtrip | H_menu_trips | H_switch_trip
| H_menu_balance | H_menu_history | H_menu_setrate | H_setrate_choose
| H_menu_deletetrip | H_del_confirm | H_del_cancel | H_del_choose
| H_newtrip_fetch_rate | H_newtrip_manual_rate_now | H_newtrip_rate_ok
| H_newtrip_rate_manual | H_expense_no | H_expense_yes | H_expense_confirm.

(** [c.data and c.data.startswith(p)] *)
Definition data_startswith (p data : string) : bool :=
  Py.nonempty data && Py.startswith p data.

(** The [func=lambda c: ...] of each handler. *)
Definition accepts (h : callback_handler) (data : string) : bool :=
  match h with
  | H_menu_main => String.eqb data "menu_main"
  | H_menu_newtrip => String.eqb data "menu_newtrip"
  | H_menu_trips => String.eqb data "menu_trips"
  | H_switch_trip => data_startswith "switch_" data
  | H_menu_balance => String.eqb data "menu_balance"
  | H_menu_history => String.eqb data "menu_history"
  | H_menu_setrate => String.eqb data "menu_setrate"
  | H_setrate_choose => data_startswith "setrate_" data
  | H_menu_deletetrip => String.eqb data "menu_deletetrip"
  | H_del_confirm => data_startswith "del_confirm_" data
  | H_del_cancel => String.eqb data "del_cancel"
  | H_del_choose =>
      data_startswith "del_" data && negb (String.eqb data "del_cancel") &&
      negb (Py.startswith "del_confirm_" data)
  | H_newtrip_fetch_rate => String.eqb data "newtrip_fetch_rate"
  | H_newtrip_manual_rate_now => String.eqb data "newtrip_manual_rate_now"
  | H_newtrip_rate_ok => String.eqb data "newtrip_rate_ok"
  | H_newtrip_rate_manual => String.eqb data "newtrip_rate_manual"
  | H_expense_no => String.eqb data "expense_no"
  | H_expense_yes => data_startswith "expense_yes_" data
  | H_expense_confirm => data_startswith "ex_" data
  end.

End Bot.

(* ===================================================================== *)
(** * Vocabulary of the properties *)
(* ===================================================================== *)

Module Spec.
Import Bot.

(** A character that is not a blank. *)
Definition plain (c : ascii) : bool := negb (Py.isspace c).

(** [sep] does not occur in [s]. *)
Definition no_char (sep : ascii) (s : string) : bool :=
  Py.all_chars (fun c => negb (Ascii.eqb c sep)) s.

(** The request [convert] sends when it asks the provider. *)
Definition request_of (access_key from_currency to_currency : string) (amount : Q)
    : ApiClient.request :=
  {| ApiClient.url := "http://api.exchangerate.host/convert";
     ApiClient.p_access_key := access_key;
     ApiClient.p_from := Py.upper from_currency;
     ApiClient.p_to := Py.upper to_currency;
     ApiClient.p_amount := amount |}.

(** No successful entry younger than the TTL is cached for the pair. *)
Definition stale (now : Q) (st : ApiClient.api) (from_currency to_currency : string) : Prop :=
  forall f t c_amount c_result cached_at,
    ApiClient._convert_cache st !! (Py.upper from_currency, Py.upper to_currency)
      = Some (ApiClient.Converted f t c_amount c_result, cached_at) ->
    (300 <= now - cached_at)%Q.

Definition text_message (user_id chat_id : Z) (text : string) : Message :=
  {| m_user_id := user_id; m_chat_id := chat_id; m_text := text |}.

(** The user is in state [st] with payload [data]. *)
Definition in_state (w : world) (user_id : Z) (st : string) (data : option string) : Prop :=
  Db.get_user_state user_id (db w) = Some {| Db.state := st; Db.state_data := data |}.

(** The world after the messages [l] were sent and nothing else changed. *)
Definition said (w : world) (l : list sent) : world :=
  {| db := db w; api := api w; outbox := outbox w ++ l |}.







(** Every trip has a balance [>= 0]. *)
Definition balances_nonneg (d : Db.t) : Prop :=
  forall i tr, Db.trips d !! i = Some tr -> (0 <= Db.balance_dest tr)%Q.

(** One call of [add_expense]. *)
Record attempt := {
  at_trip : Z;
  at_user : Z;
  at_dest : Q;
  at_home : Q;
}.

Definition try_expense (d : Db.t) (a : attempt) : Db.t :=
  snd (Db.add_expense (at_trip a) (at_user a) (at_dest a) (at_home a) d).

Definition run_attempts (l : list attempt) (d : Db.t) : Db.t := fold_left try_expense l d.

(** The trip [tr] after an expense of [a]. *)
Definition spend (tr : Db.Trip) (a : Q) : Db.Trip :=
  {| Db.id := Db.id tr; Db.owner := Db.owner tr; Db.name := Db.name tr;
     Db.home_currency := Db.home_currency tr; Db.dest_currency := Db.dest_currency tr;
     Db.rate := Db.rate tr; Db.balance_dest := (Db.balance_dest tr - a)%Q |}.

(** A sequence of presses of the confirm button. *)
Definition run_confirms (E : env) (l : list CallbackQuery) (w : world) : world :=
  fold_left (fun w c => snd (cb_expense_confirm E c w)) l w.

(** The callback data behind the first button of a keyboard. *)
Definition first_data (m : markup) : string :=
  match m with
  | InlineKeyboard _ ((_, data) :: _) => data
  | _ => EmptyString
  end.


(** The country a [newtrip_choose_rate_source] payload names: its third
    field, stripped, or the destination currency when it has none. *)
Definition country_or (cur : string) (rest : list string) : string :=
  match rest with p2 :: _ => Py.strip p2 | [] => cur end.



(** A character of [str(n)]: a digit or the minus sign. *)
Definition int_char (c : ascii) : bool := Py.is_digit c || Ascii.eqb c "-".

End Spec.

(* ===================================================================== *)
(** * Concrete worlds for the examples *)
(* ===================================================================== *)

Module Examples.
Import Bot Spec.

Definition countries (s : string) : option string :=
  if String.eqb s "Россия" then Some "RUB"
  else if String.eqb s "Таиланд" then Some "THB"
  else None.

(** A provider that cannot be reached. *)
Definition E_down : env :=
  {| country_to_currency := countries;
     format_balance := fun _ => "…";
     format_expense_line := fun _ _ _ => "…";
     net := fun _ => ApiClient.RequestException "timed out";
     now := 1000;
     ACCESS_KEY := "key" |}.


(** A provider that answers 1 RUB = 0.4 THB. *)
Definition net_ok (rq : ApiClient.request) : ApiClient.response :=
  ApiClient.Json
    {| ApiClient.d_success := true; ApiClient.d_error := None;
       ApiClient.d_info := None; ApiClient.d_query := None;
       ApiClient.d_result := Some (ApiClient.p_amount rq * (2 # 5))%Q |}.

Definition no_cache : ApiClient.api :=
  {| ApiClient._convert_cache := ∅; ApiClient.requests := [] |}.

(** 1 RUB = 0.4 THB, cached at time 100. *)
Definition cached_rub_thb : ApiClient.api :=
  {| ApiClient._convert_cache :=
       {[ ("RUB", "THB") := (ApiClient.Converted "RUB" "THB" 1 (2 # 5), 100%Q) ]};
     ApiClient.requests := [] |}.

Definition thai_trip : Db.Trip :=
  {| Db.id := 1; Db.owner := 7; Db.name := "Таиланд";
     Db.home_currency := "RUB"; Db.dest_currency := "THB";
     Db.rate := 5 # 2; Db.balance_dest := 100 |}.

(** User 7 owns one trip with 100 THB left. *)
Definition one_trip : Db.t :=
  {| Db.user_states := ∅; Db.trips := {[ 1 := thai_trip ]}; Db.expenses := [];
     Db.active_trips := {[ 7 := 1 ]}; Db.next_trip_id := 2 |}.

Definition no_trips : Db.t :=
  {| Db.user_states := ∅; Db.trips := ∅; Db.expenses := [];
     Db.active_trips := ∅; Db.next_trip_id := 1 |}.

(** User 7 in the state [st] with payload [data]. *)
Definition world_in (d : Db.t) (st : string) (data : string) : world :=
  {| db := Db.set_user_state 7 st (Some data) d; api := no_cache; outbox := [] |}.

Definition press (data : string) : CallbackQuery :=
  {| c_id := 1; c_user_id := 7; c_chat_id := 7; c_data := data |}.

Definition w_manual : world := world_in no_trips "newtrip_manual_rate" "RUB|THB|Таиланд".
Definition w_sum_bad_rate : world := world_in no_trips "newtrip_initial_sum" "RUB|THB|abc|Trip".
Definition w_country_to : world := world_in no_trips "newtrip_country_to" "RUB".
Definition w_choose : world := world_in no_trips "newtrip_choose_rate_source" "RUB|THB|Таиланд".



(** A provider that answers 1 RUB = 0.4 THB. *)
Definition E_ok : env :=
  {| country_to_currency := countries;
     format_balance := fun _ => "…";
     format_expense_line := fun _ _ _ => "…";
     net := net_ok;
     now := 1000;
     ACCESS_KEY := "key" |}.

(** A provider that answers with a result of zero. *)
Definition E_zero : env :=
  {| country_to_currency := countries;
     format_balance := fun _ => "…";
     format_expense_line := fun _ _ _ => "…";
     net := fun _ =>
       ApiClient.Json
         {| ApiClient.d_success := true; ApiClient.d_error := None;
            ApiClient.d_info := None; ApiClient.d_query := None;
            ApiClient.d_result := Some 0%Q |};
     now := 1000;
     ACCESS_KEY := "key" |}.

(** User 7 with one trip and no dialogue going on. *)
Definition w_idle : world := {| db := one_trip; api := no_cache; outbox := [] |}.

(** Nobody has a trip or a dialogue. *)
Definition w_empty : world := {| db := no_trips; api := no_cache; outbox := [] |}.

Definition w_country_from : world := world_in no_trips "newtrip_country_from" "x".


End Examples.

(* ===================================================================== *)
(** * Facts and theorems *)
(* ===================================================================== *)

#[local] Arguments String.append !s1 s2 : simpl nomatch.

Module PyFacts.
Import Py Spec.

Lemma append_nil_r (s : string) : s ++ EmptyString = s.
Proof. induction s as [|c s IH]; simpl; [reflexivity | now rewrite IH]. Qed.

Lemma append_assoc (a b c : string) : (a ++ b) ++ c = a ++ (b ++ c).
Proof. induction a as [|x a IH]; simpl; [reflexivity | now rewrite IH]. Qed.

Lemma length_append (a b : string) :
  String.length (a ++ b) = (String.length a + String.length b)%nat.
Proof. induction a as [|x a IH]; simpl; [reflexivity | now rewrite IH]. Qed.

Lemma all_chars_app p (a b : string) :
  all_chars p (a ++ b) = all_chars p a && all_chars p b.
Proof.
  induction a as [|x a IH]; simpl; [reflexivity|].
  rewrite IH. now rewrite andb_assoc.
Qed.

(** *** Digits *)

Lemma digit_char_spec (d : Z) :
  0 <= d < 10 -> is_digit (digit_char d) = true /\ digit_val (digit_char d) = d.
Proof.
  intros H.
  assert (d = 0 \/ d = 1 \/ d = 2 \/ d = 3 \/ d = 4 \/ d = 5 \/ d = 6 \/
          d = 7 \/ d = 8 \/ d = 9) as Hd by lia.
  repeat (destruct Hd as [-> | Hd]; [split; reflexivity|]).
  subst d. split; reflexivity.
Qed.

Lemma digits_acc_app (a : Z) (s1 s2 : string) :
  digits_acc a (s1 ++ s2) = digits_acc (digits_acc a s1) s2.
Proof. revert a. induction s1 as [|c s1 IH]; intros a; simpl; [reflexivity | apply IH]. Qed.

Lemma span_digits_all (d r : string) :
  all_chars is_digit d = true ->
  match r with EmptyString => True | String c _ => is_digit c = false end ->
  span_digits (d ++ r) = (d, r).
Proof.
  intros Hd Hr. induction d as [|c d IH]; simpl in *.
  - destruct r as [|c r]; [reflexivity|]. simpl. now rewrite Hr.
  - apply andb_true_iff in Hd as [Hc Hd]. rewrite Hc, (IH Hd). reflexivity.
Qed.

Lemma span_digits_spec (s d r : string) :
  span_digits s = (d, r) ->
  s = d ++ r /\ all_chars is_digit d = true /\
  match r with EmptyString => True | String c _ => is_digit c = false end.
Proof.
  revert d r. induction s as [|c s IH]; intros d r; simpl.
  - intros [= <- <-]. auto.
  - destruct (is_digit c) eqn:Hc.
    + destruct (span_digits s) as [d' t] eqn:Hs. intros [= <- <-].
      destruct (IH _ _ eq_refl) as (-> & Hd & Ht). simpl. rewrite Hc. auto.
    + intros [= <- <-]. simpl. auto.
Qed.

Lemma emit_app (w : nat) (n : Z) (acc : string) :
  emit w n acc = emit w n EmptyString ++ acc.
Proof.
  revert n acc. induction w as [|w IH]; intros n acc; simpl; [reflexivity|].
  rewrite IH. rewrite (IH _ (String _ EmptyString)).
  now rewrite append_assoc.
Qed.

Lemma emit_length (w : nat) (n : Z) :
  String.length (emit w n EmptyString) = w.
Proof.
  revert n. induction w as [|w IH]; intros n; simpl; [reflexivity|].
  rewrite emit_app, length_append, IH. simpl. lia.
Qed.

Lemma emit_digits (w : nat) (n : Z) :
  all_chars is_digit (emit w n EmptyString) = true.
Proof.
  revert n. induction w as [|w IH]; intros n; simpl; [reflexivity|].
  rewrite emit_app, all_chars_app, IH. simpl.
  destruct (digit_char_spec (n mod 10)) as [-> _]; [|reflexivity].
  apply Z.mod_pos_bound. lia.
Qed.

Lemma emit_value (w : nat) (n a : Z) :
  0 <= n ->
  digits_acc a (emit w n EmptyString) = a * 10 ^ Z.of_nat w + n mod 10 ^ Z.of_nat w.
Proof.
  revert n a. induction w as [|w IH]; intros n a Hn.
  - simpl. rewrite Z.mod_1_r. lia.
  - cbn [emit]. rewrite emit_app, digits_acc_app, IH by (apply Z.div_pos; lia).
    cbn [digits_acc].
    destruct (digit_char_spec (n mod 10)) as [_ ->]; [apply Z.mod_pos_bound; lia|].
    rewrite Nat2Z.inj_succ, Z.pow_succ_r by lia.
    rewrite (Z.rem_mul_r n 10 (10 ^ Z.of_nat w)) by lia.
    ring.
Qed.

Lemma strip_zeros_spec (s : string) :
  all_chars is_digit s = true -> nonempty s = true ->
  all_chars is_digit (strip_zeros s) = true /\
  nonempty (strip_zeros s) = true /\
  digits_acc 0 (strip_zeros s) = digits_acc 0 s.
Proof.
  induction s as [|c s IH]; [discriminate|].
  intros Hd _. simpl in Hd. apply andb_true_iff in Hd as [Hc Hd].
  destruct s as [|c' s'].
  - simpl. rewrite Hc. auto.
  - cbn [strip_zeros]. destruct (Ascii.eqb c "0") eqn:E.
    + apply Ascii.eqb_eq in E. subst c.
      destruct (IH Hd eq_refl) as (H1 & H2 & H3).
      repeat split; auto.
    + split; [|split]; auto. simpl. rewrite Hc. exact Hd.
Qed.

Lemma pow10_ge_pow2 (w : nat) : 2 ^ Z.of_nat w <= 10 ^ Z.of_nat w.
Proof. apply Z.pow_le_mono_l. lia. Qed.

Lemma str_of_nonneg_spec (n : Z) :
  0 <= n ->
  all_chars is_digit (str_of_nonneg n) = true /\
  nonempty (str_of_nonneg n) = true /\
  digits_acc 0 (str_of_nonneg n) = n.
Proof.
  intros Hn. unfold str_of_nonneg.
  set (w := S (Z.to_nat (Z.log2 n))).
  assert (Hne : nonempty (emit w n EmptyString) = true).
  { pose proof (emit_length w n) as HL.
    destruct (emit w n EmptyString); [discriminate HL | reflexivity]. }
  destruct (strip_zeros_spec _ (emit_digits w n) Hne) as (H1 & H2 & H3).
  repeat split; auto.
  rewrite H3, emit_value by exact Hn.
  rewrite Z.mod_small; [lia|].
  split; [exact Hn|].
  destruct (Z.eq_dec n 0) as [-> | Hz]; [apply Z.pow_pos_nonneg; lia|].
  pose proof (Z.log2_spec n ltac:(lia)) as [_ Hlt].
  pose proof (pow10_ge_pow2 w) as Hp.
  replace (Z.of_nat w) with (Z.succ (Z.log2 n)) in *
    by (unfold w; rewrite Nat2Z.inj_succ, Z2Nat.id; [lia | apply Z.log2_nonneg]).
  lia.
Qed.

(** *** Blanks and signs *)

Lemma digit_plain (c : ascii) : is_digit c = true -> plain c = true.
Proof.
  unfold is_digit, plain, isspace. cbv zeta.
  repeat match goal with
         | |- context [?a <=? ?b] => destruct (Z.leb_spec a b)
         end; simpl; intros; try lia; auto.
Qed.

Lemma digits_plain (s : string) :
  all_chars is_digit s = true -> all_chars plain s = true.
Proof.
  induction s as [|c s IH]; simpl; [auto|].
  intros H. apply andb_true_iff in H as [Hc Hs].
  now rewrite (digit_plain _ Hc), IH.
Qed.

Lemma rstrip_plain (s : string) : all_chars plain s = true -> rstrip s = s.
Proof.
  induction s as [|c s IH]; simpl; [auto|].
  intros H. apply andb_true_iff in H as [Hc Hs].
  unfold plain in Hc. apply negb_true_iff in Hc. rewrite Hc. simpl.
  now rewrite IH.
Qed.

Lemma strip_plain (s : string) : all_chars plain s = true -> strip s = s.
Proof.
  intros H. unfold strip.
  assert (lstrip s = s) as ->.
  { destruct s as [|c s]; [reflexivity|]. simpl in *.
    apply andb_true_iff in H as [Hc _].
    unfold plain in Hc. apply negb_true_iff in Hc. now rewrite Hc. }
  now apply rstrip_plain.
Qed.

Lemma sign_str_plain (neg : bool) : all_chars plain (sign_str neg) = true.
Proof. now destruct neg. Qed.

Lemma cut_sign_digit (c : ascii) (r : string) :
  is_digit c = true -> cut_sign (String c r) = (false, String c r).
Proof.
  destruct c as [[] [] [] [] [] [] [] []]; try discriminate; reflexivity.
Qed.

Lemma cut_sign_signed (neg : bool) (body : string) :
  all_chars is_digit body = true -> nonempty body = true ->
  forall rest, cut_sign (sign_str neg ++ body ++ rest) = (neg, body ++ rest).
Proof.
  intros Hd Hn rest. destruct body as [|c b]; [discriminate|].
  simpl in Hd. apply andb_true_iff in Hd as [Hc _].
  destruct neg; simpl; [reflexivity|].
  now apply cut_sign_digit.
Qed.

(** *** [int] reads what [str_of_int] writes *)

Lemma signed_abs (n : Z) : signed (n <? 0) (Z.abs n) = n.
Proof. unfold signed. destruct (Z.ltb_spec n 0); lia. Qed.

Lemma str_of_int_signed (n : Z) :
  str_of_int n = sign_str (n <? 0) ++ str_of_nonneg (Z.abs n).
Proof.
  unfold str_of_int. destruct (Z.ltb_spec n 0); simpl.
  - now replace (Z.abs n) with (- n) by lia.
  - now replace (Z.abs n) with n by lia.
Qed.

Lemma int_of_str (n : Z) : int (str_of_int n) = Some n.
Proof.
  rewrite str_of_int_signed.
  destruct (str_of_nonneg_spec (Z.abs n) (Z.abs_nonneg n)) as (Hd & Hne & Hv).
  unfold int. rewrite strip_plain.
  2:{ rewrite all_chars_app, sign_str_plain. simpl. now apply digits_plain. }
  rewrite <- (append_nil_r (str_of_nonneg (Z.abs n))) at 1.
  rewrite (cut_sign_signed _ _ Hd Hne), (span_digits_all _ EmptyString Hd I).
  destruct (str_of_nonneg (Z.abs n)); [discriminate|].
  now rewrite Hv, signed_abs.
Qed.

(** *** [float] reads what [float_repr] writes *)

Lemma pow10_pos (k : nat) : Z.pos (pow10 k) = 10 ^ Z.of_nat k.
Proof. unfold pow10. rewrite Z2Pos.id; [reflexivity | apply Z.pow_pos_nonneg; lia]. Qed.

Lemma float_fixed (neg : bool) (m : Z) (k : nat) :
  0 <= m ->
  float (sign_str neg ++ fixed_str m k) = Some (signed neg m # pow10 k).
Proof.
  intros Hm. unfold fixed_str.
  set (ip := str_of_nonneg (m / 10 ^ Z.of_nat k)).
  set (fp := emit k (m mod 10 ^ Z.of_nat k) EmptyString).
  assert (Hpow : 0 < 10 ^ Z.of_nat k) by (apply Z.pow_pos_nonneg; lia).
  destruct (str_of_nonneg_spec (m / 10 ^ Z.of_nat k)) as (Hd & Hne & Hv);
    [apply Z.div_pos; lia|]. fold ip in Hd, Hne, Hv.
  pose proof (emit_digits k (m mod 10 ^ Z.of_nat k)) as Hfd. fold fp in Hfd.
  unfold float. rewrite strip_plain.
  2:{ rewrite !all_chars_app, sign_str_plain, (digits_plain _ Hd). simpl.
      now apply digits_plain. }
  rewrite (cut_sign_signed _ _ Hd Hne).
  rewrite (span_digits_all ip (String "." fp) Hd eq_refl).
  rewrite <- (append_nil_r fp) at 1. rewrite (span_digits_all fp EmptyString Hfd I).
  rewrite Hne. simpl negb. cbv iota. simpl andb. cbv iota.
  f_equal. f_equal.
  - f_equal. rewrite digits_acc_app, Hv. unfold fp.
    rewrite emit_value by (apply Z.mod_pos_bound; lia).
    rewrite Z.mod_mod by lia.
    rewrite (Z.div_mod m (10 ^ Z.of_nat k)) at 3 by lia. ring.
  - unfold fp. now rewrite emit_length.
Qed.

Lemma float_fraction (neg : bool) (p d : Z) :
  0 <= p -> 0 < d ->
  float (sign_str neg ++ str_of_nonneg p ++ String "/" (str_of_nonneg d))
  = Some (signed neg p # Z.to_pos d).
Proof.
  intros Hp Hd0.
  destruct (str_of_nonneg_spec p Hp) as (Hd & Hne & Hv).
  destruct (str_of_nonneg_spec d ltac:(lia)) as (Hdd & Hdne & Hdv).
  unfold float. rewrite strip_plain.
  2:{ rewrite !all_chars_app, sign_str_plain, (digits_plain _ Hd). simpl.
      now apply digits_plain. }
  rewrite (cut_sign_signed _ _ Hd Hne).
  rewrite (span_digits_all _ (String "/" _) Hd eq_refl).
  rewrite <- (append_nil_r (str_of_nonneg d)) at 1.
  rewrite (span_digits_all _ EmptyString Hdd I).
  rewrite Hne, Hv, Hdv. simpl negb. cbv iota. simpl andb.
  destruct (Z.ltb_spec 0 d); [reflexivity | lia].
Qed.

Lemma find_scale_sound (fuel k0 : nat) (d : positive) (k : nat) :
  find_scale fuel k0 d = Some k -> (10 ^ Z.of_nat k) mod Z.pos d = 0.
Proof.
  revert k0. induction fuel as [|f IH]; intros k0; simpl; [discriminate|].
  destruct (Z.eqb_spec ((10 ^ Z.of_nat k0) mod Z.pos d) 0) as [E|_].
  - now intros [= <-].
  - apply IH.
Qed.

Lemma float_of_repr (x : Q) :
  exists y, float (float_repr x) = Some y /\ (y == x)%Q.
Proof.
  unfold float_repr.
  destruct (Qred x) as [num den] eqn:Hx. cbn [Qnum Qden].
  assert (Hq : (num # den == x)%Q) by (rewrite <- Hx; apply Qred_correct).
  destruct (find_scale _ 1 den) as [k|] eqn:Hk.
  - apply find_scale_sound in Hk.
    eexists. split.
    + apply float_fixed. apply Z.mul_nonneg_nonneg; [apply Z.abs_nonneg|].
      apply Z.div_pos; [apply Z.pow_nonneg|]; lia.
    + rewrite <- Hq. unfold Qeq. cbn [Qnum Qden]. rewrite pow10_pos.
      apply Z.div_exact in Hk; [|lia].
      set (c := 10 ^ Z.of_nat k / Z.pos den) in *.
      rewrite Hk.
      replace (signed (num <? 0) (Z.abs num * c)) with (num * c); [ring|].
      unfold signed. destruct (Z.ltb_spec num 0); lia.
  - eexists. split.
    + apply float_fraction; [apply Z.abs_nonneg | lia].
    + rewrite <- Hq, signed_abs. reflexivity.
Qed.
End PyFacts.

Module NumFacts.
Import Py PyFacts Bot Spec.

Lemma minus_or_other (c : ascii) :
  c = "-"%char \/
  forall (A : Type) (f : string -> A) (x : A) (r : string),
    match String c r with String "-" r' => f r' | _ => x end = x.
Proof.
  destruct c as [[] [] [] [] [] [] [] []];
    first [left; reflexivity | right; reflexivity].
Qed.

Lemma number_re_float (s : string) :
  number_re s = true -> exists q, float s = Some q.
Proof.
  unfold number_re. intros H.
  assert (exists neg body,
            cut_sign s = (neg, body) /\ s = sign_str neg ++ body /\
            match s with String "-" r => r | _ => s end = body) as (neg & body & Hcut & Hs & Hb).
  { destruct s as [|c r]; [discriminate H|].
    destruct (minus_or_other c) as [-> | Hc].
    - exists true, r. auto.
    - rewrite (Hc string (fun r' => r') (String c r) r) in H |- *.
      exists false, (String c r). repeat split.
      simpl in H. destruct (is_digit c) eqn:Hd; [|discriminate H].
      now apply cut_sign_digit. }
  rewrite Hb in H. clear Hb.
  destruct (span_digits body) as [ip r1] eqn:Hsp.
  apply andb_true_iff in H as [Hne H].
  destruct (span_digits_spec _ _ _ Hsp) as (Hbody & Hd & _).
  assert (Hplain : all_chars plain body = true ->
                   strip s = s).
  { intros Hp. apply strip_plain. rewrite Hs, all_chars_app, sign_str_plain. exact Hp. }
  destruct r1 as [|c r2].
  - unfold float. rewrite Hplain, Hcut, Hsp, Hne; [eauto|].
    rewrite Hbody, append_nil_r. now apply digits_plain.
  - destruct c as [[] [] [] [] [] [] [] []]; try discriminate H.
    destruct (span_digits r2) as [fp r3] eqn:Hsp2.
    destruct (span_digits_spec _ _ _ Hsp2) as (Hr2 & Hfd & _).
    destruct r3; [|discriminate H].
    unfold float. rewrite Hplain, Hcut, Hsp, Hsp2, Hne; [simpl; eauto|].
    rewrite Hbody, all_chars_app, (digits_plain _ Hd), Hr2, append_nil_r. simpl.
    now apply digits_plain.
Qed.


Lemma is_number_amount (text : string) :
  is_number_message text = true -> exists q, amount_of text = Some q.
Proof.
  intros H. unfold amount_of. rewrite H.
  unfold is_number_message in H.
  destruct (negb (nonempty text) || negb (nonempty (strip text))); [discriminate|].
  now apply number_re_float.
Qed.

Lemma parse_amount_of (text : string) (q : Q) (w : world) :
  amount_of text = Some q -> parse_amount text w = (Ret q, w).
Proof.
  unfold amount_of, parse_amount. destruct (is_number_message text); [|discriminate].
  now intros ->.
Qed.


End NumFacts.

Module CacheProps.
Import ApiClient Spec.

Lemma Qlt_bool_iff (a b : Q) : Qlt_bool a b = true <-> (a < b)%Q.
Proof.
  unfold Qlt_bool. rewrite negb_true_iff. split.
  - intros H. apply Qnot_le_lt. intros Hle. apply Qle_bool_iff in Hle. congruence.
  - intros H. destruct (Qle_bool b a) eqn:E; [|reflexivity].
    apply Qle_bool_iff in E. exfalso. exact (Qlt_not_le _ _ H E).
Qed.

Lemma Qlt_bool_false (a b : Q) : Qlt_bool a b = false <-> (b <= a)%Q.
Proof.
  unfold Qlt_bool. rewrite negb_false_iff. apply Qle_bool_iff.
Qed.

Lemma convert_stale net now access_key from_currency to_currency amount st :
  stale now st from_currency to_currency ->
  convert net now access_key from_currency to_currency amount st =
  let k := (Py.upper from_currency, Py.upper to_currency) in
  let rq := request_of access_key from_currency to_currency amount in
  let sent := {| _convert_cache := _convert_cache st; requests := requests st ++ [rq] |} in
  match net rq with
  | RequestException e =>
      (Failed "request_failed" None ("Не удалось связаться с API: " ++ e), sent)
  | JsonValueError e => (Failed "invalid_response" None e, sent)
  | Json data =>
      if negb (d_success data) then
        let '(code, info) :=
          match d_error data with
          | None => (CodeStr "?", "Неизвестная ошибка API.")
          | Some (ErrorDict c i) =>
              (default (CodeStr "?") c, default "Неизвестная ошибка API." i)
          | Some (ErrorOther v) => (v, default "Ошибка API." (d_info data))
          end in
        (Failed "api_error" (Some code) info, sent)
      else
        let q := default {| q_from := None; q_to := None; q_amount := None |} (d_query data) in
        let result :=
          Converted (default (Py.upper from_currency) (q_from q))
                    (default (Py.upper to_currency) (q_to q))
                    (default amount (q_amount q)) (default 0%Q (d_result data)) in
        (result, {| _convert_cache := <[k := (result, now)]> (_convert_cache st);
                    requests := requests st ++ [rq] |})
  end.
Proof.
  intros Hst. unfold convert, request_of.
  destruct (_convert_cache st !! (Py.upper from_currency, Py.upper to_currency))
    as [[[f t ca cr|e c i] cached_at]|] eqn:Hc; try reflexivity.
  specialize (Hst _ _ _ _ _ Hc).
  apply Qlt_bool_false in Hst. unfold _CONVERT_CACHE_TTL. rewrite Hst. reflexivity.
Qed.

(** C3.  When a successful entry for the uppercased pair is cached and is
    less than 300 time units old, [convert] sends no request (the module
    state, with its log of requests, is returned as it was) and returns
    success with the requested amount times the cached result divided by the
    cached principal floored at 1e-9.  With no such entry (none for the
    pair, or one whose age has reached the TTL) the call sends exactly one
    request. *)
Theorem convert_cache_hit_no_request net now access_key from_currency to_currency amount st :
  (forall f t c_amount c_result cached_at,
      _convert_cache st !! (Py.upper from_currency, Py.upper to_currency)
        = Some (Converted f t c_amount c_result, cached_at) ->
      (now - cached_at < 300)%Q ->
      convert net now access_key from_currency to_currency amount st =
      (Converted (Py.upper from_currency) (Py.upper to_currency) amount
                 (amount * (c_result / Py.max c_amount (1 # 1000000000))), st))
  /\ (stale now st from_currency to_currency ->
      requests (snd (convert net now access_key from_currency to_currency amount st)) =
      (requests st ++ [request_of access_key from_currency to_currency amount])%list).
Proof.
  split.
  - intros f t ca cr cached_at Hc Hlt. unfold convert. rewrite Hc.
    apply Qlt_bool_iff in Hlt. unfold _CONVERT_CACHE_TTL. now rewrite Hlt.
  - intros Hst. rewrite (convert_stale _ _ _ _ _ _ _ Hst). cbv zeta.
    destruct (net _) as [e|e|data]; try reflexivity.
    destruct (negb (d_success data)); [|reflexivity].
    destruct (d_error data) as [[c i|v]|]; reflexivity.
Qed.


End CacheProps.

Module FlowProps.
Import Py PyFacts Bot Spec NumFacts CacheProps.

Ltac enter_state H :=
  unfold handle_message, bind, read_db; unfold in_state in H;
  cbn [m_user_id m_chat_id m_text text_message];
  rewrite H;
  cbn [Db.state Db.state_data default from_option];
  cbn [String.eqb Ascii.eqb Bool.eqb].



Lemma div_nonzero (a b : Q) (w : world) :
  ~ (b == 0)%Q -> div a b w = (Ret (a / b)%Q, w).
Proof.
  intros H. unfold div. destruct (Qeq_bool b 0) eqn:E; [|reflexivity].
  apply Qeq_bool_iff in E. contradiction.
Qed.


(** *** Fields of a payload *)






Lemma all_chars_impl (p q : ascii -> bool) (s : string) :
  (forall c, p c = true -> q c = true) -> all_chars p s = true -> all_chars q s = true.
Proof.
  intros Hpq. induction s as [|c s IH]; simpl; [auto|].
  intros H. apply andb_true_iff in H as [Hc Hs]. now rewrite (Hpq _ Hc), IH.
Qed.

Lemma digits_no_pipe (s : string) : all_chars is_digit s = true -> no_char "|" s = true.
Proof.
  apply all_chars_impl. intros c.
  destruct c as [[] [] [] [] [] [] [] []]; try discriminate; reflexivity.
Qed.

Lemma float_repr_no_pipe (x : Q) : no_char "|" (float_repr x) = true.
Proof.
  unfold float_repr, no_char.
  assert (Hs : forall b, all_chars (fun c => negb (Ascii.eqb c "|")) (sign_str b) = true)
    by (now intros []).
  assert (Hn : forall n, 0 <= n -> all_chars (fun c => negb (Ascii.eqb c "|")) (str_of_nonneg n) = true).
  { intros n Hn. apply digits_no_pipe. now apply str_of_nonneg_spec. }
  destruct (find_scale _ _ _) as [k|].
  - unfold fixed_str. rewrite !all_chars_app, Hs, Hn.
    + simpl. apply digits_no_pipe, emit_digits.
    + apply Z.div_pos; [|apply Z.pow_pos_nonneg; lia].
      apply Z.mul_nonneg_nonneg; [apply Z.abs_nonneg|].
      apply Z.div_pos; [apply Z.pow_nonneg|]; lia.
  - rewrite !all_chars_app, Hs, Hn by apply Z.abs_nonneg. simpl.
    apply Hn. lia.
Qed.

(** *** The two steps of entering a rate and a sum *)



End FlowProps.

Module FlowTheorems.
Import Py PyFacts Bot Spec NumFacts CacheProps FlowProps.



(** C10.  The payload [RUB|THB|abc|Trip] has the four fields state
    [newtrip_initial_sum] expects, and its third field is not a number:
    whatever the message, handling it raises [ValueError] from [float()]
    and leaves the world, the stored state included, as it was; the
    recovery path is not taken. *)
Theorem initial_sum_bad_rate_raises (E : env) (message : Message) (w : world) :
  in_state w (m_user_id message) "newtrip_initial_sum" (Some "RUB|THB|abc|Trip") ->
  split "|" 3 "RUB|THB|abc|Trip" = ["RUB"; "THB"; "abc"; "Trip"] /\
  float "abc" = None /\
  handle_message E message w = (Raise ValueError, w).
Proof.
  intros Hst. split; [reflexivity|]. split; [reflexivity|].
  enter_state Hst. reflexivity.
Qed.

(** C8.  In state [newtrip_country_to], when the input resolves to the
    stored home currency the user gets the prompt for another country and
    nothing else changes; when it resolves to another currency the state
    becomes [newtrip_choose_rate_source] with payload
    [home|dest|country] and one message is sent, the rate cache and the log
    of requests being as before. *)
Theorem country_to_transition (E : env) (message : Message) (w : world)
    (home cur : string) :
  let user_id := m_user_id message in
  let country := strip (m_text message) in
  in_state w user_id "newtrip_country_to" (Some home) ->
  resolve_dest E country = Some cur ->
  (cur = home ->
   handle_message E message w =
   (Ret tt, said w [SendMessage (m_chat_id message)
      "Валюта назначения должна отличаться от домашней. Введите другую страну." None]))
  /\
  (cur <> home ->
   exists prompt keyboard,
     handle_message E message w =
     (Ret tt,
      {| db := Db.set_user_state user_id "newtrip_choose_rate_source"
                 (Some (home ++ "|" ++ cur ++ "|" ++ country)) (db w);
         api := api w;
         outbox := outbox w ++ [SendMessage (m_chat_id message) prompt keyboard] |})).
Proof.
  intros user_id country Hst Hres. subst user_id. split.
  - intros ->. enter_state Hst. unfold handle_newtrip_country_to, id.
    fold country. rewrite Hres, String.eqb_refl. reflexivity.
  - intros Hne. do 2 eexists. enter_state Hst. unfold handle_newtrip_country_to, id.
    fold country. rewrite Hres.
    destruct (String.eqb_spec cur home) as [|_]; [contradiction|]. reflexivity.
Qed.

Lemma split2_nonempty (payload a b : string) (l : list string) :
  split "|" 2 payload = a :: b :: l -> nonempty payload = true.
Proof. destruct payload; [discriminate | reflexivity]. Qed.




End FlowTheorems.

Module LedgerProps.
Import Py PyFacts Bot Spec NumFacts CacheProps FlowProps.

Lemma get_trip_Some (trip user_id : Z) (d : Db.t) (tr : Db.Trip) :
  Db.get_trip trip user_id d = Some tr <->
  Db.trips d !! trip = Some tr /\ Db.owner tr = user_id.
Proof.
  unfold Db.get_trip. destruct (Db.trips d !! trip) as [t|]; [|split; [discriminate | intros [[=] _]]].
  destruct (Z.eqb_spec (Db.owner t) user_id); split.
  - now intros [= <-].
  - now intros [[= <-] _].
  - discriminate.
  - intros [[= <-] ?]. contradiction.
Qed.

Lemma add_expense_accept (trip user_id : Z) (a_dest a_home : Q) (d : Db.t) (tr : Db.Trip) :
  Db.get_trip trip user_id d = Some tr ->
  (0 < a_dest)%Q -> (a_dest <= Db.balance_dest tr)%Q ->
  Db.add_expense trip user_id a_dest a_home d =
  (true,
   {| Db.user_states := Db.user_states d;
      Db.trips := <[trip := spend tr a_dest]> (Db.trips d);
      Db.expenses := Db.expenses d ++
                     [{| Db.trip_id := trip; Db.amount_dest := a_dest;
                         Db.amount_home := a_home |}];
      Db.active_trips := Db.active_trips d;
      Db.next_trip_id := Db.next_trip_id d |}).
Proof.
  intros Htr Hpos Hle. unfold Db.add_expense. rewrite Htr.
  destruct (Qle_bool a_dest 0) eqn:E1.
  { apply Qle_bool_iff in E1. exfalso. exact (Qlt_not_le _ _ Hpos E1). }
  apply Qlt_bool_false in Hle. now rewrite Hle.
Qed.

Lemma add_expense_cases (trip user_id : Z) (a_dest a_home : Q) (d : Db.t) :
  Db.add_expense trip user_id a_dest a_home d = (false, d) \/
  exists tr, Db.get_trip trip user_id d = Some tr /\
             (0 < a_dest)%Q /\ (a_dest <= Db.balance_dest tr)%Q.
Proof.
  unfold Db.add_expense. destruct (Db.get_trip trip user_id d) as [tr|]; [|now left].
  destruct (Qle_bool a_dest 0) eqn:E1; [now left|].
  destruct (ApiClient.Qlt_bool (Db.balance_dest tr) a_dest) eqn:E2; [now left|].
  right. exists tr. split; [reflexivity|]. split.
  - apply Qnot_le_lt. intros H. apply Qle_bool_iff in H. congruence.
  - now apply Qlt_bool_false.
Qed.

Lemma add_expense_nonneg (trip user_id : Z) (a_dest a_home : Q) (d : Db.t) :
  balances_nonneg d ->
  balances_nonneg (snd (Db.add_expense trip user_id a_dest a_home d)).
Proof.
  intros Hinv.
  destruct (add_expense_cases trip user_id a_dest a_home d) as [-> | (tr & Htr & Hpos & Hle)];
    [exact Hinv|].
  rewrite (add_expense_accept _ _ _ _ _ _ Htr Hpos Hle). cbn [snd].
  intros i t. cbn [Db.trips]. rewrite lookup_insert.
  destruct (decide (trip = i)) as [->|Hne].
  - intros [= <-]. cbn [spend Db.balance_dest].
    unfold Qminus. rewrite <- Qle_minus_iff. exact Hle.
  - apply Hinv.
Qed.

Lemma run_attempts_nonneg (l : list attempt) (d : Db.t) :
  balances_nonneg d -> balances_nonneg (run_attempts l d).
Proof.
  revert d. induction l as [|a l IH]; intros d Hinv; [exact Hinv|].
  apply IH. now apply add_expense_nonneg.
Qed.

(** The confirm button never raises; it leaves the database alone or makes
    one call of [add_expense] for the presser. *)
Lemma cb_expense_confirm_effect (E : env) (c : CallbackQuery) (w : world) :
  fst (cb_expense_confirm E c w) = Ret tt /\
  api (snd (cb_expense_confirm E c w)) = api w /\
  (db (snd (cb_expense_confirm E c w)) = db w \/
   exists trip a_dest a_home,
     db (snd (cb_expense_confirm E c w)) =
     snd (Db.add_expense trip (c_user_id c) a_dest a_home (db w))).
Proof.
  unfold cb_expense_confirm, bind, answer_callback_query, send_message, emit.
  cbn [db api outbox].
  destruct (negb _); [cbn; auto|].
  destruct (parse_expense_data _) as [[[trip a_d] a_h]|]; [|cbn; auto].
  unfold call_db, read_db. cbn [db api outbox].
  destruct (negb _); cbn [fst snd db api]; repeat split; right; eauto.
Qed.

Lemma run_confirms_nonneg (E : env) (l : list CallbackQuery) (w : world) :
  balances_nonneg (db w) -> balances_nonneg (db (run_confirms E l w)).
Proof.
  revert w. induction l as [|c l IH]; intros w Hinv; [exact Hinv|].
  apply IH.
  destruct (cb_expense_confirm_effect E c w) as (_ & _ & [-> | (t & a & h & ->)]);
    [exact Hinv | now apply add_expense_nonneg].
Qed.

(** C1.  From a database whose balances are all [>= 0], every sequence of
    [add_expense] calls, and every sequence of presses of the confirm
    button, leaves all balances [>= 0], and the button never raises.  A call
    for a trip that is missing or owned by another user, with
    [amount_dest <= 0] or with [amount_dest] above the balance returns
    false and the database as it was; any other call returns true, takes
    [amount_dest] off the balance of that trip and appends one expense
    row. *)
Theorem add_expense_balance_invariant (d : Db.t) :
  balances_nonneg d ->
  (forall attempts, balances_nonneg (run_attempts attempts d)) /\
  (forall E presses w, db w = d ->
     balances_nonneg (db (run_confirms E presses w)) /\
     forall c, fst (cb_expense_confirm E c w) = Ret tt) /\
  (forall trip user_id a_dest a_home,
     (Db.trips d !! trip = None \/
      (exists tr, Db.trips d !! trip = Some tr /\ Db.owner tr <> user_id) \/
      (a_dest <= 0)%Q \/
      (exists tr, Db.trips d !! trip = Some tr /\ (Db.balance_dest tr < a_dest)%Q)) ->
     Db.add_expense trip user_id a_dest a_home d = (false, d)) /\
  (forall trip user_id a_dest a_home tr,
     Db.trips d !! trip = Some tr -> Db.owner tr = user_id ->
     (0 < a_dest)%Q -> (a_dest <= Db.balance_dest tr)%Q ->
     exists d',
       Db.add_expense trip user_id a_dest a_home d = (true, d') /\
       Db.trips d' = <[trip := spend tr a_dest]> (Db.trips d) /\
       Db.expenses d' = (Db.expenses d ++
                         [{| Db.trip_id := trip; Db.amount_dest := a_dest;
                             Db.amount_home := a_home |}])%list /\
       (0 <= Db.balance_dest (spend tr a_dest))%Q).
Proof.
  intros Hinv. split; [intros l; now apply run_attempts_nonneg|].
  split.
  { intros E presses w <-. split; [now apply run_confirms_nonneg|].
    intros c. apply cb_expense_confirm_effect. }
  split.
  - intros trip user_id a_dest a_home Hcase.
    destruct (add_expense_cases trip user_id a_dest a_home d)
      as [H | (tr & Htr & Hpos & Hle)]; [exact H|].
    apply get_trip_Some in Htr as [Htr Hown]. exfalso.
    destruct Hcase as [H | [(tr' & H & Hne) | [H | (tr' & H & Hlt)]]].
    + congruence.
    + congruence.
    + exact (Qlt_not_le _ _ Hpos H).
    + assert (tr' = tr) as -> by congruence. exact (Qlt_not_le _ _ Hlt Hle).
  - intros trip user_id a_dest a_home tr Htr Hown Hpos Hle.
    eexists. split.
    + apply (add_expense_accept _ _ _ _ _ tr);
        [apply get_trip_Some; split; assumption | exact Hpos | exact Hle].
    + cbn [Db.trips Db.expenses spend Db.balance_dest]. repeat split.
      unfold Qminus. rewrite <- Qle_minus_iff. exact Hle.
Qed.

(** *** The amounts in the callback data *)








End LedgerProps.

(* ===================================================================== *)
(** * More of the code *)
(* ===================================================================== *)

Module CacheMore.
Import ApiClient Spec CacheProps.

Lemma convert_fresh net now access_key from_currency to_currency amount st
    f t c_amount c_result cached_at :
  _convert_cache st !! (Py.upper from_currency, Py.upper to_currency)
    = Some (Converted f t c_amount c_result, cached_at) ->
  (now - cached_at < 300)%Q ->
  convert net now access_key from_currency to_currency amount st =
  (Converted (Py.upper from_currency) (Py.upper to_currency) amount
             (amount * (c_result / Py.max c_amount (1 # 1000000000))), st).
Proof.
  intros Hc Hlt. unfold convert. rewrite Hc.
  apply Qlt_bool_iff in Hlt. unfold _CONVERT_CACHE_TTL. now rewrite Hlt.
Qed.

Lemma convert_stale_success net now access_key from_currency to_currency amount st f t a r :
  stale now st from_currency to_currency ->
  fst (convert net now access_key from_currency to_currency amount st) = Converted f t a r ->
  snd (convert net now access_key from_currency to_currency amount st) =
  {| _convert_cache :=
       <[(Py.upper from_currency, Py.upper to_currency) := (Converted f t a r, now)]>
         (_convert_cache st);
     requests := requests st ++ [request_of access_key from_currency to_currency amount] |}.
Proof.
  intros Hst. rewrite (convert_stale _ _ _ _ _ _ _ Hst). cbv zeta.
  destruct (net _) as [e|e|data]; try discriminate.
  destruct (negb (d_success data)).
  - destruct (d_error data) as [[c i|v]|]; discriminate.
  - cbn [fst snd]. now intros ->.
Qed.

Lemma convert_stale_failure net now access_key from_currency to_currency amount st :
  stale now st from_currency to_currency ->
  success (fst (convert net now access_key from_currency to_currency amount st)) = false ->
  snd (convert net now access_key from_currency to_currency amount st) =
  {| _convert_cache := _convert_cache st;
     requests := requests st ++ [request_of access_key from_currency to_currency amount] |}.
Proof.
  intros Hst. rewrite (convert_stale _ _ _ _ _ _ _ Hst). cbv zeta.
  destruct (net _) as [e|e|data]; try reflexivity.
  destruct (negb (d_success data)).
  - destruct (d_error data) as [[c i|v]|]; reflexivity.
  - discriminate.
Qed.

(** X1.  After a call of [convert] that asked the provider and got a
    result, a second call for the same pair (the codes compared in upper
    case) less than 300 seconds later sends nothing: the first call logged
    exactly one request, and the second returns the new amount scaled by
    the stored result over the stored principal, the module state being
    unchanged. *)
Theorem convert_again_within_ttl net1 net2 now1 now2 key1 key2
    from1 to1 from2 to2 a1 a2 st f t a r :
  stale now1 st from1 to1 ->
  fst (convert net1 now1 key1 from1 to1 a1 st) = Converted f t a r ->
  Py.upper from2 = Py.upper from1 -> Py.upper to2 = Py.upper to1 ->
  (now2 - now1 < 300)%Q ->
  let st1 := snd (convert net1 now1 key1 from1 to1 a1 st) in
  requests st1 = (requests st ++ [request_of key1 from1 to1 a1])%list /\
  convert net2 now2 key2 from2 to2 a2 st1 =
  (Converted (Py.upper from1) (Py.upper to1) a2
             (a2 * (r / Py.max a (1 # 1000000000))), st1).
Proof.
  intros Hst Hr Hf Ht Hlt st1. unfold st1.
  rewrite (convert_stale_success _ _ _ _ _ _ _ _ _ _ _ Hst Hr).
  split; [reflexivity|].
  rewrite <- Hf, <- Ht.
  apply (convert_fresh _ _ _ _ _ _ _ f t a r now1); [|exact Hlt].
  cbn [_convert_cache]. rewrite Hf, Ht. apply lookup_insert_eq.
Qed.

(** X2.  A failed call of [convert] is not cached: the cache is as it was
    before the call, and a later call for the same pair asks the provider
    again, so that the log holds both requests. *)
Theorem convert_failure_asks_again net1 net2 now1 now2 key1 key2
    from_currency to_currency a1 a2 st :
  stale now1 st from_currency to_currency ->
  success (fst (convert net1 now1 key1 from_currency to_currency a1 st)) = false ->
  (now1 <= now2)%Q ->
  let st1 := snd (convert net1 now1 key1 from_currency to_currency a1 st) in
  _convert_cache st1 = _convert_cache st /\
  requests (snd (convert net2 now2 key2 from_currency to_currency a2 st1)) =
  (requests st ++ [request_of key1 from_currency to_currency a1;
                   request_of key2 from_currency to_currency a2])%list.
Proof.
  intros Hst Hfail Hle st1. unfold st1.
  rewrite (convert_stale_failure _ _ _ _ _ _ _ Hst Hfail).
  split; [reflexivity|].
  assert (Hst2 : stale now2
            {| _convert_cache := _convert_cache st;
               requests := requests st ++ [request_of key1 from_currency to_currency a1] |}
            from_currency to_currency).
  { intros f t ca cr cached_at Hc. cbn [_convert_cache] in Hc.
    specialize (Hst _ _ _ _ _ Hc).
    apply Qle_trans with (now1 - cached_at)%Q; [exact Hst|].
    unfold Qminus. apply Qplus_le_l. exact Hle. }
  rewrite (convert_stale _ _ _ _ _ _ _ Hst2). cbv zeta. cbn [_convert_cache requests].
  rewrite <- app_assoc. cbn [app].
  destruct (net2 _) as [e|e|data]; try reflexivity.
  destruct (negb (d_success data)); [|reflexivity].
  destruct (d_error data) as [[c i|v]|]; reflexivity.
Qed.




End CacheMore.

Module ConfigProps.
Import Py PyFacts ApiClient Spec CacheProps FlowProps CacheMore.

Lemma upper_char_idem (c : ascii) : upper_char (upper_char c) = upper_char c.
Proof. destruct c as [[] [] [] [] [] [] [] []]; reflexivity. Qed.

Lemma upper_idem (s : string) : upper (upper s) = upper s.
Proof.
  unfold upper. induction s as [|c s IH]; simpl; [reflexivity|].
  now rewrite upper_char_idem, IH.
Qed.

Lemma stale_upper now st a b : stale now st a b -> stale now st (upper a) (upper b).
Proof. unfold stale. now rewrite !upper_idem. Qed.

(** X4.  [check_currencies_available]: two codes that are equal in upper
    case are refused with the fixed text, no request is sent and the cache
    is untouched; for different codes with nothing fresh in the cache, a
    positive answer has cost exactly one request for the amount 1, and any
    [convert] for the pair within the next 300 seconds is served from the
    cache. *)
Theorem check_currencies_guard net now access_key from_currency to_currency st :
  (upper from_currency = upper to_currency ->
   check_currencies_available net now access_key from_currency to_currency st =
   ((false, "Валюта отправления и назначения не должны совпадать."), st))
  /\
  (upper from_currency <> upper to_currency ->
   stale now st from_currency to_currency ->
   fst (fst (check_currencies_available net now access_key from_currency to_currency st))
     = true ->
   let st1 := snd (check_currencies_available net now access_key from_currency
                     to_currency st) in
   requests st1 = (requests st ++ [request_of access_key from_currency to_currency 1])%list /\
   forall net2 now2 key2 amount, (now2 - now < 300)%Q ->
     exists result,
       convert net2 now2 key2 from_currency to_currency amount st1 =
       (Converted (upper from_currency) (upper to_currency) amount result, st1)).
Proof.
  unfold check_currencies_available. split.
  - intros ->. now rewrite String.eqb_refl.
  - intros Hne Hst.
    destruct (String.eqb_spec (upper from_currency) (upper to_currency)) as [|_];
      [contradiction|].
    destruct (fst (convert net now access_key (upper from_currency) (upper to_currency) 1 st))
      as [f t a r|e c i] eqn:Hr; cbn [success negb fst snd]; [intros _|discriminate].
    pose proof (convert_stale_success _ _ _ _ _ _ _ _ _ _ _ (stale_upper _ _ _ _ Hst) Hr)
      as Hs.
    rewrite !upper_idem in Hs. rewrite Hs. split.
    + cbn [requests]. unfold request_of. now rewrite !upper_idem.
    + intros net2 now2 key2 amount Hlt. eexists.
      apply (convert_fresh _ _ _ _ _ _ _ f t a r now); [|exact Hlt].
      cbn [_convert_cache]. apply lookup_insert_eq.
Qed.

(** *** [config.env] *)














Lemma config_line_skip (env : gmap string string) (line : string) :
  strip line = EmptyString \/ startswith "#" (strip line) = true \/
  contains "=" (strip line) = false ->
  config_line env line = env.
Proof.
  unfold config_line. intros [H | [H | H]]; rewrite H.
  - reflexivity.
  - now rewrite orb_true_r.
  - now destruct (_ || _).
Qed.

(** X6.  A blank line, a line whose first non-blank character is [#] and a
    line without [=] do not change what [get_config] reads, wherever
    they stand in the file. *)
Theorem config_line_skipped (before after : list string) (line : string) :
  strip line = EmptyString \/ startswith "#" (strip line) = true \/
  contains "=" (strip line) = false ->
  parse_config (before ++ line :: after) = parse_config (before ++ after).
Proof.
  intros H. unfold parse_config. rewrite !fold_left_app. cbn [fold_left].
  now rewrite (config_line_skip _ _ H).
Qed.


End ConfigProps.

Module SafetyProps.
Import Py PyFacts Bot Spec NumFacts CacheProps FlowProps.




















End SafetyProps.

Module FlowMore.
Import Py PyFacts Bot Spec NumFacts CacheProps FlowProps.


(** X8.  A text [is_number_message] accepts is always parsed by
    [parse_amount]: [float()] does not raise on it, and the world is
    unchanged. *)
Theorem number_message_parses (text : string) (w : world) :
  is_number_message text = true ->
  exists q, parse_amount text w = (Ret q, w) /\
            float (replace "," "." (strip text)) = Some q.
Proof.
  intros H. destruct (is_number_amount _ H) as [q Hq]. exists q.
  split; [now apply parse_amount_of|].
  unfold amount_of in Hq. now rewrite H in Hq.
Qed.


Lemma nonempty_app_char (a b : string) (c : ascii) : nonempty (a ++ String c b) = true.
Proof. now destruct a. Qed.

Lemma pending_in_state (w : world) (user_id : Z) (st payload : string) :
  in_state w user_id st (Some payload) -> nonempty payload = true ->
  pending st (Db.get_user_state user_id (db w)) = Some payload.
Proof.
  intros H Hne. unfold in_state in H. rewrite H. unfold pending.
  cbn [Db.state Db.state_data truthy]. now rewrite String.eqb_refl, Hne.
Qed.


Lemma fetch_rate_converted (E : env) (c : CallbackQuery) (w : world)
    (payload home cur : string) (rest : list string) (f t : string) (a r : Q) :
  in_state w (c_user_id c) "newtrip_choose_rate_source" (Some payload) ->
  split "|" 2 payload = home :: cur :: rest ->
  fst (ApiClient.convert (net E) (now E) (ACCESS_KEY E) home cur 1 (api w))
    = ApiClient.Converted f t a r ->
  cb_newtrip_fetch_rate E c w =
  bind (div 1 r) (fun rate =>
    write_db (Db.set_user_state (c_user_id c) "newtrip_confirm_rate"
                (Some (home ++ "|" ++ cur ++ "|" ++ float_repr rate ++ "|" ++
                       country_or cur rest))) ;;
    send_message (c_chat_id c)
      ("Текущий курс: 1 " ++ cur ++ " = " ++ format_fixed 4 rate ++ " " ++
       home ++ " (1 " ++ home ++ " = " ++ format_fixed 4 r ++ " " ++ cur ++ ")." ++
       nl ++ nl ++ "Вас устраивает?")
      (Some (InlineKeyboard 2
               [("Да", "newtrip_rate_ok");
                ("Нет, ввести вручную", "newtrip_rate_manual")])))
    {| db := db w;
       api := snd (ApiClient.convert (net E) (now E) (ACCESS_KEY E) home cur 1 (api w));
       outbox := outbox w ++ [AnswerCallbackQuery (c_id c)] |}.
Proof.
  intros Hst Hsplit Hr.
  unfold cb_newtrip_fetch_rate. unfold bind at 1. unfold answer_callback_query, emit.
  unfold bind at 1. unfold read_db at 1. cbn [db api outbox].
  rewrite (pending_in_state _ _ _ _ Hst (FlowTheorems.split2_nonempty _ _ _ _ Hsplit)).
  rewrite Hsplit. unfold bind at 1. unfold convert. cbn [db api outbox]. rewrite Hr.
  reflexivity.
Qed.

Lemma fetch_rate_step (E : env) (c : CallbackQuery) (w : world)
    (payload home cur : string) (rest : list string) (f t : string) (a r : Q) :
  in_state w (c_user_id c) "newtrip_choose_rate_source" (Some payload) ->
  split "|" 2 payload = home :: cur :: rest ->
  fst (ApiClient.convert (net E) (now E) (ACCESS_KEY E) home cur 1 (api w))
    = ApiClient.Converted f t a r ->
  ~ (r == 0)%Q ->
  exists text keyboard,
    cb_newtrip_fetch_rate E c w =
    (Ret tt,
     {| db := Db.set_user_state (c_user_id c) "newtrip_confirm_rate"
                (Some (home ++ "|" ++ cur ++ "|" ++ float_repr (1 / r) ++ "|" ++
                       country_or cur rest)) (db w);
        api := snd (ApiClient.convert (net E) (now E) (ACCESS_KEY E) home cur 1 (api w));
        outbox := outbox w ++ [AnswerCallbackQuery (c_id c);
                               SendMessage (c_chat_id c) text keyboard] |}).
Proof.
  intros Hst Hsplit Hr Hnz. do 2 eexists.
  rewrite (fetch_rate_converted _ _ _ _ _ _ _ _ _ _ _ Hst Hsplit Hr).
  unfold bind at 1. rewrite (div_nonzero _ _ _ Hnz).
  unfold bind, write_db, send_message, emit. cbn [db api outbox].
  rewrite <- app_assoc. reflexivity.
Qed.

(** X11.  When the provider answers with a non-zero result [r],
    [cb_newtrip_fetch_rate] moves the user to [newtrip_confirm_rate] with
    the payload [home|dest|rate|country], whose rate field holds no [|] and
    reads back as [1/r]; the callback is answered and one message is
    sent. *)
Theorem fetch_rate_success_transition (E : env) (c : CallbackQuery) (w : world)
    (payload home cur : string) (rest : list string) (f t : string) (a r : Q) :
  in_state w (c_user_id c) "newtrip_choose_rate_source" (Some payload) ->
  split "|" 2 payload = home :: cur :: rest ->
  fst (ApiClient.convert (net E) (now E) (ACCESS_KEY E) home cur 1 (api w))
    = ApiClient.Converted f t a r ->
  ~ (r == 0)%Q ->
  exists rate_field rate text keyboard,
    cb_newtrip_fetch_rate E c w =
    (Ret tt,
     {| db := Db.set_user_state (c_user_id c) "newtrip_confirm_rate"
                (Some (home ++ "|" ++ cur ++ "|" ++ rate_field ++ "|" ++
                       country_or cur rest)) (db w);
        api := snd (ApiClient.convert (net E) (now E) (ACCESS_KEY E) home cur 1 (api w));
        outbox := outbox w ++ [AnswerCallbackQuery (c_id c);
                               SendMessage (c_chat_id c) text keyboard] |}) /\
    no_char "|" rate_field = true /\
    float rate_field = Some rate /\ (rate == 1 / r)%Q.
Proof.
  intros Hst Hsplit Hr Hnz.
  destruct (float_of_repr (1 / r)) as (rate & Hfloat & Hrate).
  destruct (fetch_rate_step E c w _ _ _ _ _ _ _ _ Hst Hsplit Hr Hnz) as (text & kb & H).
  exists (float_repr (1 / r)), rate, text, kb.
  split; [exact H|]. split; [apply float_repr_no_pipe|]. split; assumption.
Qed.

(** X12.  When the provider answers with a result of zero,
    [cb_newtrip_fetch_rate] raises [ZeroDivisionError] after it has answered
    the callback and stored the answer in the cache; the database, the
    user's state included, is unchanged. *)
Theorem fetch_rate_zero_result_raises (E : env) (c : CallbackQuery) (w : world)
    (payload home cur : string) (rest : list string) (f t : string) (a r : Q) :
  in_state w (c_user_id c) "newtrip_choose_rate_source" (Some payload) ->
  split "|" 2 payload = home :: cur :: rest ->
  fst (ApiClient.convert (net E) (now E) (ACCESS_KEY E) home cur 1 (api w))
    = ApiClient.Converted f t a r ->
  (r == 0)%Q ->
  cb_newtrip_fetch_rate E c w =
  (Raise ZeroDivisionError,
   {| db := db w;
      api := snd (ApiClient.convert (net E) (now E) (ACCESS_KEY E) home cur 1 (api w));
      outbox := outbox w ++ [AnswerCallbackQuery (c_id c)] |}).
Proof.
  intros Hst Hsplit Hr Hz.
  rewrite (fetch_rate_converted _ _ _ _ _ _ _ _ _ _ _ Hst Hsplit Hr).
  unfold bind, div. apply Qeq_bool_iff in Hz. now rewrite Hz.
Qed.

(** X13.  The four buttons of the trip-creation flow, pressed when the
    user is not in the state they belong to (or the state has no payload),
    answer the callback and send one message with the main menu; the
    database and the rate cache are unchanged and no request is sent. *)
Theorem stale_session_buttons (E : env) (c : CallbackQuery) (w : world) :
  let st := Db.get_user_state (c_user_id c) (db w) in
  (pending "newtrip_choose_rate_source" st = None ->
   exists t1 t2,
     cb_newtrip_fetch_rate E c w =
       (Ret tt, said w [AnswerCallbackQuery (c_id c);
                        SendMessage (c_chat_id c) t1 (Some main_menu_markup)]) /\
     cb_newtrip_manual_rate_now c w =
       (Ret tt, said w [AnswerCallbackQuery (c_id c);
                        SendMessage (c_chat_id c) t2 (Some main_menu_markup)])) /\
  (pending "newtrip_confirm_rate" st = None ->
   exists t1 t2,
     cb_newtrip_rate_ok c w =
       (Ret tt, said w [AnswerCallbackQuery (c_id c);
                        SendMessage (c_chat_id c) t1 (Some main_menu_markup)]) /\
     cb_newtrip_rate_manual c w =
       (Ret tt, said w [AnswerCallbackQuery (c_id c);
                        SendMessage (c_chat_id c) t2 (Some main_menu_markup)])).
Proof.
  cbv zeta. split; intros Hp; do 2 eexists; split;
    unfold cb_newtrip_fetch_rate, cb_newtrip_manual_rate_now, cb_newtrip_rate_ok,
      cb_newtrip_rate_manual, bind, answer_callback_query, emit, read_db;
    cbn [db api outbox]; rewrite Hp;
    unfold send_message, emit, said; cbn [db api outbox];
    rewrite <- app_assoc; reflexivity.
Qed.

End FlowMore.

Module FlowCompose.
Import Py PyFacts Bot Spec NumFacts CacheProps FlowProps FlowMore.



End FlowCompose.

Module ExpenseMore.
Import Py PyFacts Bot Spec NumFacts CacheProps FlowProps LedgerProps FlowMore.










(** X17.  A three-letter alphabetic code the country table does not know
    is not accepted as the home currency (the user is asked again, state
    and database unchanged), but is accepted, in upper case, as the
    destination currency when it differs from the home currency. *)
Theorem currency_code_only_as_destination (E : env) (message : Message) (w : world)
    (data : option string) (home : string) :
  let code := strip (m_text message) in
  truthy (country_to_currency E code) = false ->
  String.length code = 3%nat -> isalpha code = true ->
  (in_state w (m_user_id message) "newtrip_country_from" data ->
   exists prompt,
     handle_message E message w =
     (Ret tt, said w [SendMessage (m_chat_id message) prompt None])) /\
  (in_state w (m_user_id message) "newtrip_country_to" (Some home) ->
   upper code <> home ->
   exists prompt keyboard,
     handle_message E message w =
     (Ret tt,
      {| db := Db.set_user_state (m_user_id message) "newtrip_choose_rate_source"
                 (Some (home ++ "|" ++ upper code ++ "|" ++ code)) (db w);
         api := api w;
         outbox := outbox w ++ [SendMessage (m_chat_id message) prompt keyboard] |})).
Proof.
  intros code Hno Hlen Halpha. split.
  - intros Hst. eexists. enter_state Hst. unfold handle_newtrip_country_from.
    fold code. rewrite Hno. reflexivity.
  - intros Hst Hne. do 2 eexists. enter_state Hst.
    unfold handle_newtrip_country_to, id, resolve_dest. fold code.
    rewrite Hno, Hlen, Halpha. cbn [negb Nat.eqb andb].
    destruct (String.eqb_spec (upper code) home) as [|_]; [contradiction|].
    reflexivity.
Qed.

End ExpenseMore.

Module ButtonProps.
Import Py PyFacts Bot Spec NumFacts CacheProps FlowProps LedgerProps FlowMore.

Lemma prefix_compat (p q s : string) :
  String.prefix p s = true -> String.prefix q s = true ->
  String.prefix p q = true \/ String.prefix q p = true.
Proof.
  revert p q. induction s as [|c s IH]; intros p q.
  - destruct p, q; cbn [String.prefix]; auto; discriminate.
  - destruct p as [|a p]; [destruct q; cbn [String.prefix]; auto|].
    destruct q as [|b q]; [cbn [String.prefix]; auto|].
    cbn [String.prefix].
    destruct (ascii_dec a c) as [->|]; [|discriminate].
    destruct (ascii_dec b c) as [->|]; [|discriminate].
    destruct (ascii_dec c c) as [_|]; [|contradiction].
    apply IH.
Qed.

Ltac split_ands :=
  repeat match goal with
         | H : _ && _ = true |- _ => apply andb_true_iff in H as [? ?]
         end.

Ltac clash :=
  first
    [ match goal with
      | H : String.eqb ?d ?l = true |- _ =>
          apply String.eqb_eq in H; subst d; vm_compute in *; congruence
      end
    | match goal with
      | H : negb ?b = true, H' : ?b = true |- _ => rewrite H' in H; discriminate H
      end
    | match goal with
      | Ha : String.prefix ?p ?d = true, Hb : String.prefix ?q ?d = true |- _ =>
          destruct (prefix_compat _ _ _ Ha Hb) as [X|X]; vm_compute in X; discriminate X
      end ].

Lemma accepts_unique (data : string) (h1 h2 : callback_handler) :
  accepts h1 data = true -> accepts h2 data = true -> h1 = h2.
Proof.
  destruct h1, h2; try reflexivity; intros H1 H2; exfalso;
    cbn [accepts] in H1, H2; unfold data_startswith, startswith in *;
    split_ands; clash.
Qed.

(** X18.  The filters of the callback handlers exclude each other: data
    that one handler accepts are refused by every other handler, so the
    order of registration decides nothing. *)
Theorem accepts_exclusive (data : string) (h1 h2 : callback_handler) :
  h1 <> h2 -> accepts h1 data = true -> accepts h2 data = false.
Proof.
  intros Hne H1. destruct (accepts h2 data) eqn:H2; [|reflexivity].
  exfalso. apply Hne. exact (accepts_unique data h1 h2 H1 H2).
Qed.


(** *** The trip id in the callback data *)


Lemma str_of_int_chars (n : Z) : all_chars int_char (str_of_int n) = true.
Proof.
  rewrite str_of_int_signed, all_chars_app. apply andb_true_iff. split.
  - now destruct (n <? 0).
  - destruct (str_of_nonneg_spec (Z.abs n) (Z.abs_nonneg n)) as (Hd & _ & _).
    revert Hd. apply all_chars_impl. intros c Hc. unfold int_char. now rewrite Hc.
Qed.

Lemma prefix_app_self (p s : string) : String.prefix p (p ++ s) = true.
Proof.
  induction p as [|c p IH]; [now destruct s|].
  cbn [String.append String.prefix]. now destruct (ascii_dec c c).
Qed.

Lemma replace_from_skip (old new a s : string) :
  replace_from old new (String.length a) (a ++ s) = replace_from old new 0 s.
Proof. induction a as [|c a IH]; [reflexivity | exact IH]. Qed.

Lemma replace_from_absent (c0 : ascii) (old' new s : string) :
  all_chars (fun c => negb (Ascii.eqb c c0)) s = true ->
  replace_from (String c0 old') new 0 s = s.
Proof.
  induction s as [|c s IH]; [reflexivity|].
  cbn [all_chars replace_from String.prefix]. intros H.
  apply andb_true_iff in H as [Hc Hs]. apply negb_true_iff, Ascii.eqb_neq in Hc.
  destruct (ascii_dec c0 c) as [->|_]; [contradiction|].
  now rewrite (IH Hs).
Qed.

Lemma callback_trip_id_of (c0 : ascii) (p' : string) (n : Z) :
  int_char c0 = false ->
  callback_trip_id (String c0 p') (String c0 p' ++ str_of_int n) = Some n.
Proof.
  intros Hc0. unfold callback_trip_id, replace_sub.
  cbn [String.append replace_from].
  pose proof (prefix_app_self (String c0 p') (str_of_int n)) as Hp.
  cbn [String.append] in Hp. rewrite Hp.
  cbn [String.length Nat.sub]. rewrite Nat.sub_0_r, replace_from_skip.
  rewrite replace_from_absent; [apply int_of_str|].
  pose proof (str_of_int_chars n) as Hn. revert Hn. apply all_chars_impl.
  intros c Hc. apply negb_true_iff, Ascii.eqb_neq. intros ->. congruence.
Qed.

Lemma str_of_int_first (n : Z) :
  exists c r, str_of_int n = String c r /\ int_char c = true.
Proof.
  pose proof (str_of_int_chars n) as H.
  assert (Hne : nonempty (str_of_int n) = true).
  { rewrite str_of_int_signed.
    destruct (str_of_nonneg_spec (Z.abs n) (Z.abs_nonneg n)) as (_ & Hne & _).
    destruct (n <? 0); [reflexivity | exact Hne]. }
  destruct (str_of_int n) as [|c r]; [discriminate|].
  exists c, r. split; [reflexivity|]. simpl in H. now apply andb_true_iff in H as [H _].
Qed.

(** X19.  The buttons that carry a trip id: the data written for the trip
    [n] with the prefixes [switch_], [setrate_], [del_] and [del_confirm_]
    are accepted by the handler of that prefix and decode to [n], negative
    ids included. *)
Theorem trip_button_routed_and_decoded (n : Z) :
  (accepts H_switch_trip ("switch_" ++ str_of_int n) = true /\
   callback_trip_id "switch_" ("switch_" ++ str_of_int n) = Some n) /\
  (accepts H_setrate_choose ("setrate_" ++ str_of_int n) = true /\
   callback_trip_id "setrate_" ("setrate_" ++ str_of_int n) = Some n) /\
  (accepts H_del_choose ("del_" ++ str_of_int n) = true /\
   callback_trip_id "del_" ("del_" ++ str_of_int n) = Some n) /\
  (accepts H_del_confirm (first_data (trip_confirm_delete_markup n)) = true /\
   callback_trip_id "del_confirm_" (first_data (trip_confirm_delete_markup n)) = Some n).
Proof.
  repeat split; try (apply callback_trip_id_of; reflexivity);
    cbn [accepts first_data trip_confirm_delete_markup];
    unfold data_startswith, startswith;
    try (rewrite prefix_app_self; reflexivity).
  rewrite prefix_app_self.
  destruct (str_of_int_first n) as (c & r & -> & Hc).
  cbn [String.append nonempty andb String.eqb String.prefix Ascii.eqb Bool.eqb].
  destruct (ascii_dec "c" c) as [<-|Hne]; [discriminate Hc|].
  rewrite andb_true_r. apply negb_true_iff.
  destruct (Ascii.eqb_spec c "c") as [->|_]; [contradiction | reflexivity].
Qed.



End ButtonProps.

Module TripFlow.
Import Py PyFacts Bot Spec NumFacts CacheProps FlowProps FlowMore.

(** *** [strip] is idempotent *)





(** *** From the menu button to the trip *)







(** X23.  The rate menu, the delete menu, the choice of a trip to delete,
    the cancel button and the decline button only answer the callback and
    send messages: they return, and the database and the rate cache are
    unchanged.  In particular choosing a trip in the delete menu deletes
    nothing. *)
Theorem buttons_that_only_answer (c : CallbackQuery) (w : world) :
  (exists l, cb_menu_setrate c w = (Ret tt, said w (AnswerCallbackQuery (c_id c) :: l))) /\
  (exists l, cb_menu_deletetrip c w = (Ret tt, said w (AnswerCallbackQuery (c_id c) :: l))) /\
  (exists l, cb_del_choose c w = (Ret tt, said w (AnswerCallbackQuery (c_id c) :: l))) /\
  (exists l, cb_del_cancel c w = (Ret tt, said w (AnswerCallbackQuery (c_id c) :: l))) /\
  (exists l, cb_expense_no c w = (Ret tt, said w (AnswerCallbackQuery (c_id c) :: l))).
Proof.
  assert (H2 : forall a b : sent, ((outbox w ++ [a]) ++ [b] = outbox w ++ a :: [b])%list)
    by (intros; now rewrite <- app_assoc).
  repeat split;
    unfold cb_menu_setrate, cb_menu_deletetrip, cb_del_choose, cb_del_cancel,
      cb_expense_no, send_main_menu, bind, answer_callback_query, read_db,
      send_message, emit, ret, said;
    cbv zeta; cbn [db api outbox fst snd].
  - destruct (Db.get_user_trips _ _); cbn [db api outbox]; rewrite H2; eexists; reflexivity.
  - destruct (Db.get_user_trips _ _); cbn [db api outbox]; rewrite H2; eexists; reflexivity.
  - destruct (callback_trip_id _ _); [|eexists; reflexivity].
    cbn [db api outbox fst snd].
    destruct (Db.get_trip _ _ _); cbn [db api outbox]; rewrite H2; eexists; reflexivity.
  - cbn [db api outbox]. rewrite H2. eexists; reflexivity.
  - cbn [db api outbox]. rewrite H2. eexists; reflexivity.
Qed.

End TripFlow.

(* ===================================================================== *)
(** * The theorems at concrete inputs *)
(* ===================================================================== *)

Module Counterexamples.
Import Py Bot Spec Examples.


End Counterexamples.

Module Witnesses.
Import Py Bot Spec Examples.

Lemma one_trip_nonneg : balances_nonneg one_trip.
Proof.
  intros i tr H. unfold one_trip in H. cbn [Db.trips] in H.
  apply lookup_singleton_Some in H as [_ <-]. vm_compute. discriminate.
Qed.

Lemma add_expense_balance_invariant_witness :
  balances_nonneg one_trip /\
  balances_nonneg
    (run_attempts [{| at_trip := 1; at_user := 7; at_dest := 150; at_home := 375 |};
                   {| at_trip := 1; at_user := 7; at_dest := 30; at_home := 75 |};
                   {| at_trip := 1; at_user := 7; at_dest := 80; at_home := 200 |}]
                  one_trip) /\
  Db.add_expense 1 7 150 375 one_trip = (false, one_trip) /\
  exists d', Db.add_expense 1 7 30 75 one_trip = (true, d') /\
             Db.trips d' = <[1 := spend thai_trip 30]> (Db.trips one_trip).
Proof.
  destruct (LedgerProps.add_expense_balance_invariant one_trip one_trip_nonneg)
    as (H1 & _ & H3 & H4).
  split; [exact one_trip_nonneg|]. split; [apply H1|]. split.
  - apply H3. right. right. right. exists thai_trip. split; reflexivity.
  - destruct (H4 1 7 30%Q 75%Q thai_trip) as (d' & Hd & Ht & _);
      [reflexivity | reflexivity | reflexivity | vm_compute; discriminate |].
    exists d'. split; assumption.
Defined.



Lemma convert_cache_hit_no_request_witness :
  ApiClient._convert_cache cached_rub_thb !! (upper "rub", upper "thb")
    = Some (ApiClient.Converted "RUB" "THB" 1 (2 # 5), 100%Q) /\
  (200 - 100 < 300)%Q /\
  ApiClient.convert net_ok 200 "key" "rub" "thb" 50 cached_rub_thb =
    (ApiClient.Converted "RUB" "THB" 50 (50 * ((2 # 5) / Py.max 1 (1 # 1000000000))),
     cached_rub_thb) /\
  stale 400 cached_rub_thb "rub" "thb" /\
  ApiClient.requests
    (snd (ApiClient.convert net_ok 400 "key" "rub" "thb" 50 cached_rub_thb)) =
    [request_of "key" "rub" "thb" 50].
Proof.
  assert (Hc : ApiClient._convert_cache cached_rub_thb !! (upper "rub", upper "thb")
               = Some (ApiClient.Converted "RUB" "THB" 1 (2 # 5), 100%Q)) by reflexivity.
  assert (Hst : stale 400 cached_rub_thb "rub" "thb").
  { intros f t ca cr cached_at H. rewrite Hc in H. injection H as _ _ _ _ <-.
    vm_compute. discriminate. }
  split; [exact Hc|]. split; [reflexivity|]. split.
  - exact (proj1 (CacheProps.convert_cache_hit_no_request
                    net_ok 200 "key" "rub" "thb" 50 cached_rub_thb)
                 "RUB" "THB" 1%Q (2 # 5) 100%Q Hc eq_refl).
  - split; [exact Hst|].
    exact (proj2 (CacheProps.convert_cache_hit_no_request
                    net_ok 400 "key" "rub" "thb" 50 cached_rub_thb) Hst).
Defined.




Lemma initial_sum_bad_rate_raises_witness :
  in_state w_sum_bad_rate 7 "newtrip_initial_sum" (Some "RUB|THB|abc|Trip") /\
  handle_message E_down (text_message 7 7 "50000") w_sum_bad_rate =
  (Raise ValueError, w_sum_bad_rate).
Proof.
  split; [reflexivity|].
  apply (FlowTheorems.initial_sum_bad_rate_raises E_down (text_message 7 7 "50000")
           w_sum_bad_rate).
  reflexivity.
Defined.

Lemma country_to_transition_witness :
  in_state w_country_to 7 "newtrip_country_to" (Some "RUB") /\
  resolve_dest E_down (strip "Таиланд") = Some "THB" /\
  resolve_dest E_down (strip "rub") = Some "RUB" /\
  (exists prompt keyboard,
     handle_message E_down (text_message 7 7 "Таиланд") w_country_to =
     (Ret tt,
      {| db := Db.set_user_state 7 "newtrip_choose_rate_source"
                 (Some "RUB|THB|Таиланд") (db w_country_to);
         api := api w_country_to;
         outbox := [SendMessage 7 prompt keyboard] |})) /\
  handle_message E_down (text_message 7 7 "rub") w_country_to =
  (Ret tt, said w_country_to [SendMessage 7
     "Валюта назначения должна отличаться от домашней. Введите другую страну." None]).
Proof.
  split; [reflexivity|]. split; [reflexivity|]. split; [reflexivity|]. split.
  - apply (proj2 (FlowTheorems.country_to_transition E_down (text_message 7 7 "Таиланд")
                    w_country_to
                    "RUB" "THB" eq_refl eq_refl)).
    discriminate.
  - apply (proj1 (FlowTheorems.country_to_transition E_down (text_message 7 7 "rub")
                    w_country_to
                    "RUB" "RUB" eq_refl eq_refl)).
    reflexivity.
Defined.




End Witnesses.

Module Runs.
Import Py Bot Spec Examples.

Lemma nothing_cached_stale (now : Q) (a b : string) : stale now no_cache a b.
Proof. intros f t ca cr cached_at H. discriminate H. Defined.

Lemma convert_again_within_ttl_witness :
  stale 400 no_cache "rub" "thb" /\
  fst (ApiClient.convert net_ok 400 "key" "rub" "thb" 1 no_cache)
    = ApiClient.Converted "RUB" "THB" 1 (1 * (2 # 5)) /\
  (500 - 400 < 300)%Q /\
  ApiClient.requests (snd (ApiClient.convert net_ok 400 "key" "rub" "thb" 1 no_cache))
    = [request_of "key" "rub" "thb" 1] /\
  ApiClient.convert (net E_down) 500 "other" "RUB" "Thb" 50
    (snd (ApiClient.convert net_ok 400 "key" "rub" "thb" 1 no_cache)) =
  (ApiClient.Converted "RUB" "THB" 50 (50 * (1 * (2 # 5) / Py.max 1 (1 # 1000000000))),
   snd (ApiClient.convert net_ok 400 "key" "rub" "thb" 1 no_cache)).
Proof.
  split; [apply nothing_cached_stale|]. split; [reflexivity|]. split; [reflexivity|].
  apply (CacheMore.convert_again_within_ttl net_ok (net E_down) 400 500 "key" "other"
           "rub" "thb" "RUB" "Thb" 1 50 no_cache "RUB" "THB" 1 (1 * (2 # 5)));
    [apply nothing_cached_stale | reflexivity | reflexivity | reflexivity | reflexivity].
Defined.

Lemma convert_failure_asks_again_witness :
  stale 400 no_cache "rub" "thb" /\
  ApiClient.success (fst (ApiClient.convert (net E_down) 400 "key" "rub" "thb" 1 no_cache))
    = false /\
  (400 <= 401)%Q /\
  ApiClient._convert_cache
    (snd (ApiClient.convert (net E_down) 400 "key" "rub" "thb" 1 no_cache)) = ∅ /\
  ApiClient.requests
    (snd (ApiClient.convert net_ok 401 "key" "rub" "thb" 50
            (snd (ApiClient.convert (net E_down) 400 "key" "rub" "thb" 1 no_cache)))) =
  [request_of "key" "rub" "thb" 1; request_of "key" "rub" "thb" 50].
Proof.
  split; [apply nothing_cached_stale|]. split; [reflexivity|].
  split; [discriminate|].
  apply (CacheMore.convert_failure_asks_again (net E_down) net_ok 400 401 "key" "key"
           "rub" "thb" 1 50 no_cache);
    [apply nothing_cached_stale | reflexivity | discriminate].
Defined.


Lemma check_currencies_guard_witness :
  ApiClient.check_currencies_available net_ok 400 "key" "rub" "RUB" no_cache =
    ((false, "Валюта отправления и назначения не должны совпадать."), no_cache) /\
  ApiClient.requests
    (snd (ApiClient.check_currencies_available net_ok 400 "key" "rub" "thb" no_cache))
    = [request_of "key" "rub" "thb" 1] /\
  exists result,
    ApiClient.convert (net E_down) 500 "key" "rub" "thb" 50
      (snd (ApiClient.check_currencies_available net_ok 400 "key" "rub" "thb" no_cache)) =
    (ApiClient.Converted "RUB" "THB" 50 result,
     snd (ApiClient.check_currencies_available net_ok 400 "key" "rub" "thb" no_cache)).
Proof.
  destruct (ConfigProps.check_currencies_guard net_ok 400 "key" "rub" "RUB" no_cache)
    as [Hsame _].
  destruct (ConfigProps.check_currencies_guard net_ok 400 "key" "rub" "thb" no_cache)
    as [_ Hdiff].
  split; [apply Hsame; reflexivity|].
  destruct Hdiff as [Hreq Hlater];
    [discriminate | apply nothing_cached_stale | reflexivity |].
  split; [exact Hreq|].
  apply (Hlater (net E_down) 500%Q "key" 50%Q). reflexivity.
Defined.


Lemma config_line_skipped_witness :
  startswith "#" (strip "  # TELEGRAM_BOT_TOKEN=1") = true /\
  ApiClient.parse_config (["A=1"] ++ "  # TELEGRAM_BOT_TOKEN=1" :: ["B=2"]) =
  ApiClient.parse_config (["A=1"] ++ ["B=2"]).
Proof.
  split; [reflexivity|].
  apply (ConfigProps.config_line_skipped ["A=1"] ["B=2"] "  # TELEGRAM_BOT_TOKEN=1").
  right. left. reflexivity.
Defined.


Lemma number_message_parses_witness :
  is_number_message " 12,5 " = true /\
  exists q, parse_amount " 12,5 " w_idle = (Ret q, w_idle) /\ (q == 25 # 2)%Q.
Proof.
  split; [reflexivity|].
  destruct (FlowMore.number_message_parses " 12,5 " w_idle eq_refl) as (q & Hp & Hq).
  exists q. split; [exact Hp|].
  vm_compute in Hq. injection Hq as <-. reflexivity.
Defined.



Lemma fetch_rate_success_transition_witness :
  in_state w_choose 7 "newtrip_choose_rate_source" (Some "RUB|THB|Таиланд") /\
  fst (ApiClient.convert (net E_ok) (now E_ok) (ACCESS_KEY E_ok) "RUB" "THB" 1 (api w_choose))
    = ApiClient.Converted "RUB" "THB" 1 (1 * (2 # 5)) /\
  exists rate_field rate w',
    cb_newtrip_fetch_rate E_ok (press "newtrip_fetch_rate") w_choose = (Ret tt, w') /\
    in_state w' 7 "newtrip_confirm_rate"
      (Some ("RUB|THB|" ++ rate_field ++ "|Таиланд")) /\
    float rate_field = Some rate /\ (rate == 5 # 2)%Q.
Proof.
  split; [reflexivity|]. split; [reflexivity|].
  destruct (FlowMore.fetch_rate_success_transition E_ok (press "newtrip_fetch_rate")
              w_choose "RUB|THB|Таиланд" "RUB" "THB" ["Таиланд"] "RUB" "THB" 1
              (1 * (2 # 5)))
    as (rf & rate & text & kb & H & _ & Hf & Hr);
    [reflexivity | reflexivity | reflexivity | discriminate |].
  exists rf, rate. eexists. split; [exact H|].
  split; [unfold in_state, Db.get_user_state; cbn; apply lookup_insert_eq|].
  split; [exact Hf|]. rewrite Hr. reflexivity.
Defined.

Lemma fetch_rate_zero_result_raises_witness :
  in_state w_choose 7 "newtrip_choose_rate_source" (Some "RUB|THB|Таиланд") /\
  fst (ApiClient.convert (net E_zero) (now E_zero) (ACCESS_KEY E_zero) "RUB" "THB" 1
         (api w_choose))
    = ApiClient.Converted "RUB" "THB" 1 0 /\
  fst (cb_newtrip_fetch_rate E_zero (press "newtrip_fetch_rate") w_choose)
    = Raise ZeroDivisionError /\
  db (snd (cb_newtrip_fetch_rate E_zero (press "newtrip_fetch_rate") w_choose))
    = db w_choose.
Proof.
  split; [reflexivity|]. split; [reflexivity|].
  rewrite (FlowMore.fetch_rate_zero_result_raises E_zero (press "newtrip_fetch_rate")
             w_choose "RUB|THB|Таиланд" "RUB" "THB" ["Таиланд"] "RUB" "THB" 1 0);
    [split; reflexivity | reflexivity | reflexivity | reflexivity | reflexivity].
Defined.

Lemma stale_session_buttons_witness :
  pending "newtrip_choose_rate_source" (Db.get_user_state 7 (db w_manual)) = None /\
  pending "newtrip_confirm_rate" (Db.get_user_state 7 (db w_manual)) = None /\
  db (snd (cb_newtrip_fetch_rate E_ok (press "newtrip_fetch_rate") w_manual)) = db w_manual /\
  db (snd (cb_newtrip_rate_ok (press "newtrip_rate_ok") w_manual)) = db w_manual.
Proof.
  split; [reflexivity|]. split; [reflexivity|].
  destruct (FlowMore.stale_session_buttons E_ok (press "newtrip_fetch_rate") w_manual)
    as [H1 _].
  destruct (FlowMore.stale_session_buttons E_ok (press "newtrip_rate_ok") w_manual)
    as [_ H2].
  destruct (H1 eq_refl) as (t1 & t2 & -> & _).
  destruct (H2 eq_refl) as (t3 & t4 & -> & _).
  split; reflexivity.
Defined.




Lemma currency_code_only_as_destination_witness :
  truthy (countries (strip " usd ")) = false /\
  in_state w_country_from 7 "newtrip_country_from" (Some "x") /\
  in_state w_country_to 7 "newtrip_country_to" (Some "RUB") /\
  (exists prompt,
     handle_message E_down (text_message 7 7 " usd ") w_country_from =
     (Ret tt, said w_country_from [SendMessage 7 prompt None])) /\
  (exists w',
     handle_message E_down (text_message 7 7 " usd ") w_country_to = (Ret tt, w') /\
     in_state w' 7 "newtrip_choose_rate_source" (Some "RUB|USD|usd")).
Proof.
  split; [reflexivity|]. split; [reflexivity|]. split; [reflexivity|].
  destruct (ExpenseMore.currency_code_only_as_destination E_down
              (text_message 7 7 " usd ") w_country_from (Some "x") "RUB")
    as [Hfrom _]; [reflexivity | reflexivity | reflexivity |].
  destruct (ExpenseMore.currency_code_only_as_destination E_down
              (text_message 7 7 " usd ") w_country_to (Some "RUB") "RUB")
    as [_ Hto]; [reflexivity | reflexivity | reflexivity |].
  split; [apply Hfrom; reflexivity|].
  destruct Hto as (prompt & kb & H); [reflexivity | discriminate |].
  eexists. split; [exact H|]. reflexivity.
Defined.

Lemma accepts_exclusive_witness :
  H_del_confirm <> H_del_choose /\
  accepts H_del_confirm "del_confirm_5" = true /\
  accepts H_del_choose "del_confirm_5" = false.
Proof.
  split; [discriminate|]. split; [reflexivity|].
  apply (ButtonProps.accepts_exclusive "del_confirm_5" H_del_confirm H_del_choose);
    [discriminate | reflexivity].
Defined.




End Runs.
